(** * OBS prayer-time switcher: the daily scheduling cycle

    A shallow embedding of [obs_prayer_switcher.py].  Python [str] values are
    Rocq strings whose characters stand for the code points below 256, the
    scheduler's job store is a finite map from job id to job, and the
    wall clock, the scraped page and the operator's manual table are explicit
    inputs of [schedule_today]. *)

From Stdlib Require Import ZArith Ascii String DecimalString Lia.
From stdpp Require Import gmap strings list fin_maps.

Local Open Scope Z_scope.
#[local] Set Warnings "-clear-no-such-hyp".

(** ** Python string primitives *)

Module PyStr.

(** [Py_UNICODE_ISSPACE] on code points below 256: what [str.strip] removes
    and what the pattern class [\s] accepts. *)
Definition is_space (c : ascii) : bool :=
  let n := Z.of_N (N_of_ascii c) in
  ((9 <=? n) && (n <=? 13)) || ((28 <=? n) && (n <=? 32))
  || (n =? 133) || (n =? 160).

(** The pattern class [\d]: below 256 the decimal digits are '0'..'9'. *)
Definition is_digit (c : ascii) : bool :=
  let n := Z.of_N (N_of_ascii c) in (48 <=? n) && (n <=? 57).

Definition digit_value (c : ascii) : Z := Z.of_N (N_of_ascii c) - 48.

(** [s.replace(c, "")] for a one-character [c]. *)
Fixpoint remove_char (c : ascii) (s : string) : string :=
  match s with
  | EmptyString => EmptyString
  | String a r =>
      if Ascii.eqb a c then remove_char c r else String a (remove_char c r)
  end.

Fixpoint lstrip (s : string) : string :=
  match s with
  | EmptyString => EmptyString
  | String a r => if is_space a then lstrip r else s
  end.

Fixpoint rstrip (s : string) : string :=
  match s with
  | EmptyString => EmptyString
  | String a r =>
      match rstrip r with
      | EmptyString => if is_space a then EmptyString else String a EmptyString
      | r' => String a r'
      end
  end.

(** [s.strip()] *)
Definition strip (s : string) : string := rstrip (lstrip s).

(** [s.upper()] on the ASCII letters; the program applies it to the matched
    AM/PM marker only. *)
Definition upper_char (c : ascii) : ascii :=
  let n := N_of_ascii c in
  if ((97 <=? n) && (n <=? 122))%N then ascii_of_N (n - 32) else c.

Fixpoint upper (s : string) : string :=
  match s with
  | EmptyString => EmptyString
  | String a r => String (upper_char a) (upper r)
  end.

(** [s.split(sep)] for a one-character separator: never an empty list. *)
Fixpoint split (sep : ascii) (s : string) : list string :=
  match s with
  | EmptyString => [EmptyString]
  | String a r =>
      if Ascii.eqb a sep then EmptyString :: split sep r
      else match split sep r with
           | p :: ps => String a p :: ps
           | [] => [String a EmptyString]
           end
  end.

(** The digits of an integer literal: decimal digits, single underscores
    allowed between two digits.  [prev] tells whether the character before was
    a digit. *)
Fixpoint int_digits (s : string) (acc : Z) (prev : bool) : option Z :=
  match s with
  | EmptyString => if prev then Some acc else None
  | String a r =>
      if is_digit a then int_digits r (10 * acc + digit_value a) true
      else if Ascii.eqb a "_" && prev then
        match r with
        | EmptyString => None
        | String b _ => if is_digit b then int_digits r acc false else None
        end
      else None
  end.

(** [int(s)] on a string: surrounding white space is dropped, one sign is
    accepted; [None] is ValueError.  (The interpreter's limit of 4300 digits
    is not modelled.) *)
Definition int (s : string) : option Z :=
  match strip s with
  | String a r =>
      if Ascii.eqb a "+" then int_digits r 0 false
      else if Ascii.eqb a "-" then Z.opp <$> int_digits r 0 false
      else int_digits (String a r) 0 false
  | EmptyString => None
  end.

(** [f"{n:02d}"]: decimal, zero-padded on the left to width two. *)
Definition fmt_02d (n : Z) : string :=
  if n <? 0 then NilEmpty.string_of_int (Z.to_int n)
  else
    let s := NilEmpty.string_of_int (Z.to_int n) in
    if (String.length s <? 2)%nat then String "0" s else s.

End PyStr.

(** ** The time parser *)

(** The groups of [re.match(r"(\d{1,2}):(\d{2})\s*(AM|PM|am|pm)", s)]: the
    match is anchored at the start of [s] only. *)
Module Pattern.

Fixpoint skip_spaces (s : string) : string :=
  match s with
  | String a r => if PyStr.is_space a then skip_spaces r else s
  | EmptyString => EmptyString
  end.

(** [(AM|PM|am|pm)], alternatives tried in order *)
Definition marker (s : string) : option string :=
  match s with
  | String a (String b _) =>
      if Ascii.eqb a "A" && Ascii.eqb b "M" then Some "AM"
      else if Ascii.eqb a "P" && Ascii.eqb b "M" then Some "PM"
      else if Ascii.eqb a "a" && Ascii.eqb b "m" then Some "am"
      else if Ascii.eqb a "p" && Ascii.eqb b "m" then Some "pm"
      else None
  | _ => None
  end.

(** [:(\d{2})\s*(AM|PM|am|pm)] after the hour group [g1] *)
Definition after_hour (g1 : string) (s : string)
  : option (string * string * string) :=
  match s with
  | String c (String m1 (String m2 r)) =>
      if Ascii.eqb c ":" && PyStr.is_digit m1 && PyStr.is_digit m2 then
        match marker (skip_spaces r) with
        | Some g3 => Some (g1, String m1 (String m2 EmptyString), g3)
        | None => None
        end
      else None
  | _ => None
  end.

(** [\d{1,2}] is greedy: two digits first, then one. *)
Definition re_match (s : string) : option (string * string * string) :=
  match s with
  | String d1 r1 =>
      if PyStr.is_digit d1 then
        let one := after_hour (String d1 EmptyString) r1 in
        match r1 with
        | String d2 r2 =>
            if PyStr.is_digit d2 then
              match after_hour (String d1 (String d2 EmptyString)) r2 with
              | Some g => Some g
              | None => one
              end
            else one
        | EmptyString => one
        end
      else None
  | EmptyString => None
  end.

End Pattern.

Definition LF : ascii := ascii_of_N 10.

(** [convert_to_24h]: [None] is Python's [None]. *)
Definition convert_to_24h (time_str : string) : option string :=
  let time_str :=
    PyStr.strip (PyStr.remove_char " " (PyStr.remove_char LF time_str)) in
  match Pattern.re_match time_str with
  | None => None
  | Some (g1, g2, g3) =>
      match PyStr.int g1, PyStr.int g2 with
      | Some h, Some m =>
          let ampm := PyStr.upper g3 in
          let h :=
            if String.eqb ampm "PM" && negb (h =? 12) then h + 12
            else if String.eqb ampm "AM" && (h =? 12) then 0
            else h in
          if (0 <=? h) && (h <=? 23) && (0 <=? m) && (m <=? 59)
          then Some (PyStr.fmt_02d h +:+ ":" +:+ PyStr.fmt_02d m)
          else None
      | _, _ => None
      end
  end.

(** ** Configuration *)

Definition SCENE_DEFAULT : string := "The Masjid App View".
Definition SCENE_PRAYER : string := "PTZ Camera & Masjid App".
Definition PRAYER_DURATION_MINUTES : Z := 10.
Definition JUMUAH_START : string := "13:25".
Definition JUMUAH_END : string := "14:15".
Definition PRAYER_NAMES : list string :=
  ["Fajr"; "Dhuhr"; "Asr"; "Maghrib"; "Isha"].

(** ** Dictionaries

    A Python [dict] of strings: an association list in insertion order, keys
    kept distinct by [dict_set]. *)

Abbreviation dict := (list (string * string)).

Fixpoint dict_get (k : string) (d : dict) : option string :=
  match d with
  | [] => None
  | (k', v) :: r => if String.eqb k' k then Some v else dict_get k r
  end.

(** [d[k] = v]: an existing key keeps its place, a new key goes last. *)
Fixpoint dict_set (k v : string) (d : dict) : dict :=
  match d with
  | [] => [(k, v)]
  | (k', v') :: r =>
      if String.eqb k' k then (k', v) :: r else (k', v') :: dict_set k v r
  end.

(** A dict display [{k1: v1, k2: v2, ...}] *)
Definition dict_literal (entries : list (string * string)) : dict :=
  foldl (fun d kv => dict_set kv.1 kv.2 d) [] entries.

(** ** Wall-clock dates and times

    A date is its proleptic Gregorian ordinal ([date.toordinal()]); a datetime
    is a date and the microseconds since midnight.  All datetimes of the
    program carry the one [TIMEZONE] object, so Python compares and adds them
    by wall clock. *)

Definition us_per_minute : Z := 60000000.
Definition us_per_day : Z := 86400000000.

Record datetime := mk_datetime { dt_date : Z; dt_us : Z }.

Definition dt_key (d : datetime) : Z := dt_date d * us_per_day + dt_us d.

(** [a > b] *)
Definition dt_gt (a b : datetime) : bool := dt_key b <? dt_key a.

(** [date.weekday()]: Monday is 0 *)
Definition weekday (day : Z) : Z := (day + 6) mod 7.

(** [datetime.combine(day, datetime.min.time().replace(hour=h, minute=m),
    tzinfo=TIMEZONE)] for an hour and minute in range *)
Definition combine (day h m : Z) : datetime :=
  {| dt_date := day; dt_us := (h * 60 + m) * us_per_minute |}.

(** [d + timedelta(minutes=n)] *)
Definition add_minutes (d : datetime) (n : Z) : datetime :=
  let t := dt_us d + n * us_per_minute in
  {| dt_date := dt_date d + t / us_per_day; dt_us := t mod us_per_day |}.

(** [h, m = map(int, time_str.split(":"))] followed by
    [time.replace(hour=h, minute=m)]: [None] is ValueError. *)
Definition parse_hm (time_str : string) : option (Z * Z) :=
  match PyStr.split ":" time_str with
  | [a; b] =>
      match PyStr.int a, PyStr.int b with
      | Some h, Some m =>
          if (0 <=? h) && (h <=? 23) && (0 <=? m) && (m <=? 59)
          then Some (h, m) else None
      | _, _ => None
      end
  | _ => None
  end.

(** ** The scheduler's job store *)

Inductive callable := SwitchToPrayer | SwitchToDefault | ScheduleToday.

Inductive trigger :=
| DateTrigger (run_date : datetime)
| CronTrigger (hour minute : Z).

Record job := mk_job { job_func : callable; job_trigger : trigger }.

Abbreviation jobstore := (gmap string job).

(** [id.startswith(p)] *)
Fixpoint startswith (s p : string) {struct p} : bool :=
  match p with
  | EmptyString => true
  | String a p' =>
      match s with
      | String b s' => Ascii.eqb a b && startswith s' p'
      | EmptyString => false
      end
  end.

(** The ids of one generation's jobs *)
Definition generation_id (id : string) : bool :=
  startswith id "prayer_" || startswith id "jumuah_".

(** [scheduler.add_job(func, ..., id=id, replace_existing=True)] *)
Definition add_job (f : callable) (t : trigger) (id : string)
    (js : jobstore) : jobstore :=
  <[id := mk_job f t]> js.

(** The loop that removes the previously scheduled prayer jobs *)
Definition remove_generation (js : jobstore) : jobstore :=
  filter (fun kv => generation_id kv.1 = false) js.

(** How a block of statements ends *)
Inductive outcome := Returned | Raised.

(** ** The scraped page

    What the browser hands to [scrape_iqama_times]: for each prayer label its
    text and what the look-ups on its card give, or an exception at that
    point. *)

Inductive card_obs :=
| NoIqamaLabel
| NoTimeElement
| RawTime (raw : string)
| CardRaises.

Inductive label_obs :=
| LabelRaises
| Label (text : string) (card : card_obs).

Inductive page_obs :=
| PageRaises
| PageLabels (labels : list label_obs).

Definition in_names (name : string) (names : list string) : bool :=
  existsb (String.eqb name) names.
Arguments in_names : simpl never.

(** The [for label in prayer_labels] loop inside the [try], on the dict it
    fills in place: an exception leaves the loop with the entries stored so
    far. *)
Fixpoint scrape_labels (labels : list label_obs) (iqama_times : dict)
  : dict * outcome :=
  match labels with
  | [] => (iqama_times, Returned)
  | LabelRaises :: _ => (iqama_times, Raised)
  | Label text card :: rest =>
      let prayer_name := PyStr.strip text in
      if negb (in_names prayer_name PRAYER_NAMES) then
        scrape_labels rest iqama_times
      else
        match card with
        | CardRaises => (iqama_times, Raised)
        | NoIqamaLabel | NoTimeElement => scrape_labels rest iqama_times
        | RawTime raw =>
            match convert_to_24h (PyStr.strip raw) with
            | Some converted =>
                scrape_labels rest (dict_set prayer_name converted iqama_times)
            | None => scrape_labels rest iqama_times
            end
        end
  end.

(** The body of the [try] *)
Definition scrape_attempt (page : page_obs) (iqama_times : dict)
  : dict * outcome :=
  match page with
  | PageRaises => (iqama_times, Raised)
  | PageLabels labels => scrape_labels labels iqama_times
  end.

(** [except Exception] reports and falls through to [return iqama_times]. *)
Definition scrape_iqama_times (page : page_obs) : dict :=
  (scrape_attempt page []).1.

(** [get_manual_iqama_times], for the table the operator has written in it *)
Definition get_manual_iqama_times (table : list (string * string)) : dict :=
  dict_literal table.

(** ** The daily cycle *)

(** The scheduler's jobs and the scenes asked of OBS so far, oldest first *)
Record world := mk_world { jobs : jobstore; scene_calls : list string }.

(** [switch_scene] reports a failure and returns: the request is the effect. *)
Definition switch_scene (scene_name : string) (w : world) : world :=
  {| jobs := jobs w; scene_calls := scene_calls w ++ [scene_name] |}.

Definition switch_to_prayer (w : world) : world := switch_scene SCENE_PRAYER w.
Definition switch_to_default (w : world) : world := switch_scene SCENE_DEFAULT w.

(** Merge: scraped times take priority, manual fills gaps *)
Fixpoint merge_manual (names : list string) (manual iqama_times : dict)
  : dict :=
  match names with
  | [] => iqama_times
  | prayer :: rest =>
      match dict_get prayer iqama_times, dict_get prayer manual with
      | None, Some v => merge_manual rest manual (dict_set prayer v iqama_times)
      | _, _ => merge_manual rest manual iqama_times
      end
  end.

Definition start_id (prayer : string) : string := "prayer_start_" +:+ prayer.
Definition end_id (prayer : string) : string := "prayer_end_" +:+ prayer.

(** [for prayer, time_str in iqama_times.items()] *)
Fixpoint schedule_prayers (is_friday : bool) (today : Z) (now : datetime)
    (items : dict) (js : jobstore) : jobstore * outcome :=
  match items with
  | [] => (js, Returned)
  | (prayer, time_str) :: rest =>
      match parse_hm time_str with
      | None => (js, Raised)
      | Some (h, m) =>
          let prayer_dt := combine today h m in
          let back_dt := add_minutes prayer_dt PRAYER_DURATION_MINUTES in
          if is_friday && String.eqb prayer "Dhuhr" then
            schedule_prayers is_friday today now rest js
          else if dt_gt prayer_dt now then
            schedule_prayers is_friday today now rest
              (add_job SwitchToDefault (DateTrigger back_dt) (end_id prayer)
                 (add_job SwitchToPrayer (DateTrigger prayer_dt)
                    (start_id prayer) js))
          else schedule_prayers is_friday today now rest js
      end
  end.

(** The Friday Jumu'ah override *)
Definition schedule_jumuah (today : Z) (now : datetime) (js : jobstore)
  : jobstore * outcome :=
  match parse_hm JUMUAH_START, parse_hm JUMUAH_END with
  | Some (jh, jm), Some (jh2, jm2) =>
      let jumuah_start_dt := combine today jh jm in
      let jumuah_end_dt := combine today jh2 jm2 in
      if dt_gt jumuah_start_dt now then
        (add_job SwitchToDefault (DateTrigger jumuah_end_dt) "jumuah_end"
           (add_job SwitchToPrayer (DateTrigger jumuah_start_dt)
              "jumuah_start" js), Returned)
      else (js, Returned)
  | _, _ => (js, Raised)
  end.

(** What one run of the cycle reads: the date of the first clock reading, the
    second clock reading, the page and the manual table. *)
Record cycle_input := mk_input {
  in_today : Z;
  in_now : datetime;
  in_page : page_obs;
  in_manual : list (string * string)
}.

(** From [if not iqama_times] to the end of [schedule_today], on the merged
    times and the store the old generation has left *)
Definition schedule_times (today : Z) (now : datetime) (iqama_times : dict)
    (w : world) : world * outcome :=
  let is_friday := weekday today =? 4 in
  match iqama_times with
  | [] => (w, Returned)
  | _ =>
      match schedule_prayers is_friday today now iqama_times (jobs w) with
      | (js, Raised) => (mk_world js (scene_calls w), Raised)
      | (js, Returned) =>
          match (if is_friday then schedule_jumuah today now js
                 else (js, Returned)) with
          | (js, Raised) => (mk_world js (scene_calls w), Raised)
          | (js, Returned) =>
              (switch_to_default (mk_world js (scene_calls w)), Returned)
          end
      end
  end.

Definition merged_times (i : cycle_input) : dict :=
  merge_manual PRAYER_NAMES (get_manual_iqama_times (in_manual i))
    (scrape_iqama_times (in_page i)).

(** The world once the previously scheduled prayer jobs are removed *)
Definition remove_prayer_jobs (w : world) : world :=
  mk_world (remove_generation (jobs w)) (scene_calls w).

Definition schedule_today (i : cycle_input) (w : world) : world * outcome :=
  schedule_times (in_today i) (in_now i) (merged_times i)
    (remove_prayer_jobs w).

(** [main] up to the start of the scheduler: the two recurring triggers, then
    one cycle. *)
Definition install_triggers (js : jobstore) : jobstore :=
  add_job ScheduleToday (CronTrigger 12 0) "midday_refresh"
    (add_job ScheduleToday (CronTrigger 0 5) "daily_refresh" js).

Definition started : world := mk_world (install_triggers ∅) [].

Definition main (i : cycle_input) : world * outcome :=
  schedule_today i started.

(** ** The scheduler at work

    After [main] the scheduler runs what comes due: a recurring trigger runs
    the cycle again and stays, a date job runs once and leaves the store. *)

Inductive event :=
| Refresh (i : cycle_input)
| Fire (id : string).

Definition call (f : callable) (w : world) : world :=
  match f with
  | SwitchToPrayer => switch_to_prayer w
  | SwitchToDefault => switch_to_default w
  | ScheduleToday => w
  end.

Definition step (w : world) (e : event) : world :=
  match e with
  | Refresh i => (schedule_today i w).1
  | Fire id =>
      match jobs w !! id with
      | Some (mk_job f (DateTrigger _)) =>
          call f (mk_world (delete id (jobs w)) (scene_calls w))
      | _ => w
      end
  end.

Definition run (w : world) (events : list event) : world :=
  foldl step w events.

(** ** The format the specification expects

    The spec's words for a raw time: [H:MM AM|PM], case-insensitive, optional
    white space.  [is_clock_text] accepts exactly the texts that are of this
    form as a whole, white space dropped. *)

Module SpecFormat.

Fixpoint drop_spaces (s : string) : string :=
  match s with
  | EmptyString => EmptyString
  | String a r =>
      if PyStr.is_space a then drop_spaces r else String a (drop_spaces r)
  end.

Definition is_marker (s : string) : bool :=
  let u := PyStr.upper s in String.eqb u "AM" || String.eqb u "PM".

Definition is_clock_text (s : string) : bool :=
  match drop_spaces s with
  | String h1 (String c r) =>
      if Ascii.eqb c ":" then
        match r with
        | String m1 (String m2 mk) =>
            PyStr.is_digit h1 && PyStr.is_digit m1 && PyStr.is_digit m2
            && is_marker mk
        | _ => false
        end
      else
        match r with
        | String c' (String m1 (String m2 mk)) =>
            PyStr.is_digit h1 && PyStr.is_digit c && Ascii.eqb c' ":"
            && PyStr.is_digit m1 && PyStr.is_digit m2 && is_marker mk
        | _ => false
        end
  | _ => false
  end.

End SpecFormat.

(** ** Vocabulary of the statements *)

(** The text the program matches a pattern against *)
Definition cleaned (time_str : string) : string :=
  PyStr.strip (PyStr.remove_char " " (PyStr.remove_char LF time_str)).

Fixpoint all_chars (p : ascii → bool) (s : string) : bool :=
  match s with
  | EmptyString => true
  | String a r => p a && all_chars p r
  end.

(** [t] begins with one or two digits, a colon, two digits, white space and
    one of the four markers. *)
Definition begins_with_clock (t : string) : Prop :=
  ∃ g1 g2 ws g3 rest,
    t = g1 +:+ ":" +:+ g2 +:+ ws +:+ g3 +:+ rest
    ∧ all_chars PyStr.is_digit g1 = true
    ∧ (1 <= String.length g1 <= 2)%nat
    ∧ all_chars PyStr.is_digit g2 = true
    ∧ String.length g2 = 2%nat
    ∧ all_chars PyStr.is_space ws = true
    ∧ g3 ∈ ["AM"; "PM"; "am"; "pm"].

Definition roundtrip_ok (h m : Z) : bool :=
  bool_decide
    (parse_hm (PyStr.fmt_02d h +:+ ":" +:+ PyStr.fmt_02d m) = Some (h, m)).

(** Well-formed time tables: every value is read by [parse_hm], every key is
    one of [PRAYER_NAMES]. *)
Definition valid_times (d : dict) : Prop :=
  ∀ k v, (k, v) ∈ d → is_Some (parse_hm v).

Definition recognized (d : dict) : Prop :=
  ∀ k, k ∈ d.*1 → k ∈ PRAYER_NAMES.

(** One step of the label loop: the label is passed over, it stores an
    entry, or it ends the loop. *)
Inductive label_effect :=
| Skip
| Store (prayer_name converted : string)
| Abort.

Definition label_step (l : label_obs) : label_effect :=
  match l with
  | LabelRaises => Abort
  | Label text card =>
      if negb (in_names (PyStr.strip text) PRAYER_NAMES) then Skip
      else match card with
           | CardRaises => Abort
           | NoIqamaLabel | NoTimeElement => Skip
           | RawTime raw =>
               match convert_to_24h (PyStr.strip raw) with
               | Some converted => Store (PyStr.strip text) converted
               | None => Skip
               end
           end
  end.

(** The pair of jobs of one event *)
Definition start_job (dt : datetime) : job :=
  mk_job SwitchToPrayer (DateTrigger dt).
Definition end_job (dt : datetime) : job :=
  mk_job SwitchToDefault (DateTrigger (add_minutes dt PRAYER_DURATION_MINUTES)).

(** The time at which the loop schedules an entry, if it does: the entry is
    not Dhuhr on a Friday and its time today is after [now]. *)
Definition due (is_friday : bool) (today : Z) (now : datetime)
    (prayer time_str : string) : option datetime :=
  match parse_hm time_str with
  | Some (h, m) =>
      if is_friday && String.eqb prayer "Dhuhr" then None
      else if dt_gt (combine today h m) now then Some (combine today h m)
      else None
  | None => None
  end.

(** The store after the loop has passed an entry that parses *)
Definition install (is_friday : bool) (today : Z) (now : datetime)
    (prayer time_str : string) (js : jobstore) : jobstore :=
  match due is_friday today now prayer time_str with
  | Some dt => <[end_id prayer := end_job dt]>
                 (<[start_id prayer := start_job dt]> js)
  | None => js
  end.

(** The Jumu'ah window of a day, as [schedule_jumuah] reads it from
    [JUMUAH_START] and [JUMUAH_END] *)
Definition jumuah_start_dt (today : Z) : datetime := combine today 13 25.
Definition jumuah_end_dt (today : Z) : datetime := combine today 14 15.

Definition jumuah_start_job (today : Z) : job :=
  mk_job SwitchToPrayer (DateTrigger (jumuah_start_dt today)).
Definition jumuah_end_job (today : Z) : job :=
  mk_job SwitchToDefault (DateTrigger (jumuah_end_dt today)).

(** The store after the Friday block *)
Definition install_jumuah (is_friday : bool) (today : Z) (now : datetime)
    (js : jobstore) : jobstore :=
  if is_friday && dt_gt (jumuah_start_dt today) now then
    <["jumuah_end" := jumuah_end_job today]>
      (<["jumuah_start" := jumuah_start_job today]> js)
  else js.

Definition is_friday (today : Z) : bool := weekday today =? 4.

(** A Friday before dawn on which the page cannot be loaded and the manual
    table is empty, as shipped *)
Definition friday_no_times : cycle_input :=
  {| in_today := 738890;
     in_now := combine 738890 5 0;
     in_page := PageRaises;
     in_manual := [] |}.

(** A store in which the camera is on and its way back is still pending *)
Definition mid_prayer : world :=
  {| jobs := <["prayer_end_Dhuhr" := end_job (combine 738888 11 55)]>
               (install_triggers ∅);
     scene_calls := [SCENE_PRAYER] |}.

Definition noon_no_times : cycle_input :=
  {| in_today := 738888;
     in_now := combine 738888 12 0;
     in_page := PageRaises;
     in_manual := [] |}.

(** The two recurring triggers are in the store. *)
Definition triggers_present (w : world) : Prop :=
  jobs w !! "daily_refresh" = Some (mk_job ScheduleToday (CronTrigger 0 5))
  ∧ jobs w !! "midday_refresh" = Some (mk_job ScheduleToday (CronTrigger 12 0)).

(** The 12-hour reading the spec asks for: 12 AM is hour 0, 12 PM is hour
    12, any other PM hour gains 12. *)
Definition to_24h (h : Z) (marker : string) : Z :=
  if String.eqb (PyStr.upper marker) "PM"
  then (if h =? 12 then 12 else h + 12)
  else (if h =? 12 then 0 else h).

(** The text [H:MM AM|PM] of an hour, a minute and a marker *)
Definition clock_text (h m : Z) (marker : string) : string :=
  NilEmpty.string_of_int (Z.to_int h) +:+ ":" +:+ PyStr.fmt_02d m
  +:+ " " +:+ marker.

Definition markers : list string := ["AM"; "PM"; "am"; "pm"].

Definition clock_ok (h m : Z) (marker : string) : bool :=
  bool_decide
    (convert_to_24h (clock_text h m marker)
     = Some (PyStr.fmt_02d (to_24h h marker) +:+ ":" +:+ PyStr.fmt_02d m)).

(** Markers in mixed case, which the pattern does not list *)
Definition mixed_markers : list string := ["Am"; "aM"; "Pm"; "pM"].

(** What the parser gives for the text of any hour and minute of at most two
    digits: the 24-hour reading when it is a time of day, else no value. *)
Definition reading (h m : Z) (marker : string) : option string :=
  if (to_24h h marker <=? 23) && (m <=? 59)
  then Some (PyStr.fmt_02d (to_24h h marker) +:+ ":" +:+ PyStr.fmt_02d m)
  else None.

Definition reading_ok (h m : Z) (marker : string) : bool :=
  bool_decide (convert_to_24h (clock_text h m marker) = reading h m marker).

Definition mixed_ok (h m : Z) (marker : string) : bool :=
  bool_decide (convert_to_24h (clock_text h m marker) = None).

Definition all_texts (hs ms : list Z) (ok : Z → Z → string → bool)
    (names : list string) : bool :=
  forallb (fun h => forallb (fun m => forallb (ok h m) names) ms) hs.

Definition width_ok (h m : Z) : bool :=
  bool_decide
    (String.length (PyStr.fmt_02d h +:+ ":" +:+ PyStr.fmt_02d m) = 5%nat).

(** A label of another name than [name] *)
Definition names_other (name : string) (l : label_obs) : Prop :=
  match l with
  | Label text _ => PyStr.strip text ≠ name
  | LabelRaises => True
  end.

(** The two jobs of prayer [p] are both in the store, for one time, or both
    absent. *)
Definition paired (js : jobstore) (p : string) : Prop :=
  (js !! start_id p = None ∧ js !! end_id p = None)
  ∨ ∃ dt, js !! start_id p = Some (start_job dt)
          ∧ js !! end_id p = Some (end_job dt).

(** The ids a cycle can install on a day: no Dhuhr pair but the window on a
    Friday, the five pairs otherwise *)
Definition day_ids (friday : bool) : list string :=
  if friday then
    ["prayer_start_Fajr"; "prayer_end_Fajr"; "prayer_start_Asr";
     "prayer_end_Asr"; "prayer_start_Maghrib"; "prayer_end_Maghrib";
     "prayer_start_Isha"; "prayer_end_Isha"; "jumuah_start"; "jumuah_end"]
  else
    ["prayer_start_Fajr"; "prayer_end_Fajr"; "prayer_start_Dhuhr";
     "prayer_end_Dhuhr"; "prayer_start_Asr"; "prayer_end_Asr";
     "prayer_start_Maghrib"; "prayer_end_Maghrib"; "prayer_start_Isha";
     "prayer_end_Isha"].

(** [s.count(c)] for a one-character [c] *)
Fixpoint count_char (c : ascii) (s : string) : nat :=
  match s with
  | EmptyString => 0
  | String a r => (if Ascii.eqb a c then 1 else 0) + count_char c r
  end.

(** * Properties *)

(** ** Characters and strings *)

Section Strings.

Import PyStr.

Lemma PyStr_rstrip_cons a r :
  is_space a = false → rstrip (String a r) = String a (rstrip r).
Proof. intros H. simpl. rewrite H. by destruct (rstrip r). Qed.

Lemma PyStr_lstrip_cons a r :
  is_space a = false → lstrip (String a r) = String a r.
Proof. intros H. simpl. by rewrite H. Qed.

End Strings.

(** ** The time parser *)

Lemma roundtrip_table :
  forallb (fun h => forallb (roundtrip_ok h) (seqZ 0 60)) (seqZ 0 24) = true.
Proof. vm_compute. reflexivity. Qed.

(** What [convert_to_24h] prints is read back by [schedule_today]. *)
Lemma parse_hm_fmt h m :
  0 <= h <= 23 → 0 <= m <= 59 →
  parse_hm (PyStr.fmt_02d h +:+ ":" +:+ PyStr.fmt_02d m) = Some (h, m).
Proof.
  intros Hh Hm. pose proof roundtrip_table as T.
  rewrite forallb_forall in T.
  assert (In h (seqZ 0 24)) as Ih.
  { apply list_elem_of_In, elem_of_seqZ. lia. }
  specialize (T h Ih). rewrite forallb_forall in T.
  assert (In m (seqZ 0 60)) as Im.
  { apply list_elem_of_In, elem_of_seqZ. lia. }
  specialize (T m Im). unfold roundtrip_ok in T.
  by apply bool_decide_eq_true in T.
Qed.

Lemma convert_to_24h_valid s r :
  convert_to_24h s = Some r →
  ∃ h m, 0 <= h <= 23 ∧ 0 <= m <= 59
         ∧ r = PyStr.fmt_02d h +:+ ":" +:+ PyStr.fmt_02d m
         ∧ parse_hm r = Some (h, m).
Proof.
  unfold convert_to_24h. cbv zeta.
  set (t := PyStr.strip _).
  destruct (Pattern.re_match t) as [[[g1 g2] g3]|]; [|done].
  destruct (PyStr.int g1) as [h|]; [|done].
  destruct (PyStr.int g2) as [m|]; [|done].
  match goal with
  | |- context [if ?g then Some _ else None] => destruct g eqn:G
  end; [|done].
  intros [= <-].
  repeat (apply andb_true_iff in G as [G ?]).
  repeat match goal with
         | H : (_ <=? _) = true |- _ => apply Z.leb_le in H
         end.
  match goal with
  | |- context [PyStr.fmt_02d ?x +:+ ":" +:+ _] => exists x, m
  end.
  split_and!; [lia..|done|apply parse_hm_fmt; lia].
Qed.

Lemma append_cons a s t : String a s +:+ t = String a (s +:+ t).
Proof. reflexivity. Qed.

Lemma append_nil t : "" +:+ t = t.
Proof. reflexivity. Qed.

Ltac norm_append := repeat (rewrite append_cons || rewrite append_nil).

Lemma skip_spaces_split r :
  ∃ ws, r = ws +:+ Pattern.skip_spaces r
        ∧ all_chars PyStr.is_space ws = true.
Proof.
  induction r as [|a r [ws [E W]]]; [by exists ""|].
  simpl. destruct (PyStr.is_space a) eqn:S.
  - exists (String a ws). simpl. rewrite S, W. split; [|done].
    rewrite append_cons. by rewrite <- E.
  - by exists "".
Qed.

Lemma marker_split r g3 :
  Pattern.marker r = Some g3 →
  ∃ rest, r = g3 +:+ rest ∧ g3 ∈ ["AM"; "PM"; "am"; "pm"].
Proof.
  destruct r as [|a [|b rest]]; [done..|]. unfold Pattern.marker.
  repeat match goal with
  | |- context [Ascii.eqb ?x ?y && Ascii.eqb ?u ?v] =>
      destruct (Ascii.eqb_spec x y) as [->|]; simpl;
      [destruct (Ascii.eqb_spec u v) as [->|]; simpl|]
  end; intros [= <-]; exists rest; (split; [done|]); set_solver.
Qed.

Lemma after_hour_split g s g1 g2 g3 :
  Pattern.after_hour g s = Some (g1, g2, g3) →
  g1 = g ∧ ∃ ws rest,
    s = ":" +:+ g2 +:+ ws +:+ g3 +:+ rest
    ∧ all_chars PyStr.is_digit g2 = true ∧ String.length g2 = 2%nat
    ∧ all_chars PyStr.is_space ws = true
    ∧ g3 ∈ ["AM"; "PM"; "am"; "pm"].
Proof.
  destruct s as [|c [|m1 [|m2 r]]]; [done..|]. unfold Pattern.after_hour.
  destruct (Ascii.eqb_spec c ":") as [->|]; [|done]. simpl.
  destruct (PyStr.is_digit m1) eqn:D1; [|done].
  destruct (PyStr.is_digit m2) eqn:D2; [|done]. simpl.
  destruct (Pattern.marker _) as [g'|] eqn:M; [|done].
  intros [= <- <- <-]. split; [done|].
  destruct (skip_spaces_split r) as [ws [E W]].
  apply marker_split in M as [rest [E' In3]].
  exists ws, rest. simpl. rewrite D1, D2.
  split_and!; try done.
  norm_append. by rewrite <- E', <- E.
Qed.

Lemma re_match_split t g1 g2 g3 :
  Pattern.re_match t = Some (g1, g2, g3) → begins_with_clock t.
Proof.
  unfold Pattern.re_match. destruct t as [|d1 r1]; [done|].
  destruct (PyStr.is_digit d1) eqn:D1; [|done].
  assert (Pattern.after_hour (String d1 "") r1 = Some (g1, g2, g3) →
          begins_with_clock (String d1 r1)) as One.
  { intros [-> (ws & rest & -> & ? & ? & ? & ?)]%after_hour_split.
    exists (String d1 ""), g2, ws, g3, rest. simpl. rewrite D1.
    split_and!; try done; lia. }
  destruct r1 as [|d2 r2]; [done|].
  destruct (PyStr.is_digit d2) eqn:D2; [|done].
  destruct (Pattern.after_hour (String d1 (String d2 "")) r2)
    as [[[h1 h2] h3]|] eqn:Two; [|done].
  intros [= -> -> ->].
  apply after_hour_split in Two as [-> (ws & rest & -> & ? & ? & ? & ?)].
  exists (String d1 (String d2 "")), g2, ws, g3, rest. simpl. rewrite D1, D2.
  split_and!; try done; lia.
Qed.

Lemma convert_to_24h_shape s r :
  convert_to_24h s = Some r → begins_with_clock (cleaned s).
Proof.
  unfold convert_to_24h. cbv zeta. fold (cleaned s).
  destruct (Pattern.re_match (cleaned s)) as [[[g1 g2] g3]|] eqn:M; [|done].
  intros _. by eapply re_match_split.
Qed.

Lemma remove_char_app c s t :
  PyStr.remove_char c (s +:+ t)
  = PyStr.remove_char c s +:+ PyStr.remove_char c t.
Proof.
  induction s as [|a s IH]; [done|].
  norm_append. simpl. rewrite IH. by destruct (Ascii.eqb a c).
Qed.

Lemma convert_ignores_suffix suffix :
  convert_to_24h ("1:05 PM" +:+ suffix) = Some "13:05".
Proof.
  unfold convert_to_24h. cbv zeta. rewrite !remove_char_app.
  set (x := PyStr.remove_char " " (PyStr.remove_char LF "1:05 PM")).
  vm_compute in x. subst x. unfold PyStr.strip. norm_append.
  rewrite PyStr_lstrip_cons by reflexivity.
  rewrite !PyStr_rstrip_cons by reflexivity.
  set (tail := PyStr.rstrip _). simpl. vm_compute. reflexivity.
Qed.

Lemma clock_table :
  forallb (fun h => forallb (fun m => forallb (clock_ok h m) markers)
                      (seqZ 0 60)) (seqZ 1 12) = true.
Proof. vm_compute. reflexivity. Qed.

(** Every text of the expected form is read as the spec asks. *)
Lemma convert_clock_text h m marker :
  1 <= h <= 12 → 0 <= m <= 59 → marker ∈ markers →
  convert_to_24h (clock_text h m marker)
  = Some (PyStr.fmt_02d (to_24h h marker) +:+ ":" +:+ PyStr.fmt_02d m).
Proof.
  intros Hh Hm Hk. pose proof clock_table as T.
  rewrite forallb_forall in T.
  assert (In h (seqZ 1 12)) as Ih.
  { apply list_elem_of_In, elem_of_seqZ. lia. }
  specialize (T h Ih). rewrite forallb_forall in T.
  assert (In m (seqZ 0 60)) as Im.
  { apply list_elem_of_In, elem_of_seqZ. lia. }
  specialize (T m Im). rewrite forallb_forall in T.
  apply list_elem_of_In in Hk. specialize (T marker Hk).
  by apply bool_decide_eq_true in T.
Qed.

(** C4, as stated, fails: a text that is not of the expected form as a whole
    still yields a value. *)
Lemma malformed_text_is_parsed :
  ¬ (∀ s, SpecFormat.is_clock_text s = false → convert_to_24h s = None).
Proof.
  intros H. specialize (H "12:00 PM junk" eq_refl).
  vm_compute in H. discriminate H.
Qed.

(** C4 (amended): the parser gives 00:00 for 12:00 AM, 12:00 for 12:00 PM,
    13:05 for 1:05 pm and no value for 13:05 PM; every text [H:MM AM|PM] with
    the hour in 1..12 is read with 12 AM as hour 0 and 12 PM as hour 12; on
    every input it returns,
    either no value or a zero-padded 24-hour HH:MM with the hour in 0..23 and
    the minute in 0..59; and it returns no value unless the cleaned text
    begins with one or two digits, a colon, two digits, optional white space
    and one of AM, PM, am, pm. *)
Theorem convert_to_24h_spec :
  convert_to_24h "12:00 AM" = Some "00:00"
  ∧ convert_to_24h "12:00 PM" = Some "12:00"
  ∧ convert_to_24h "1:05 pm" = Some "13:05"
  ∧ convert_to_24h "13:05 PM" = None
  ∧ (∀ h m marker, 1 <= h <= 12 → 0 <= m <= 59 → marker ∈ markers →
       convert_to_24h (clock_text h m marker)
       = Some (PyStr.fmt_02d (to_24h h marker) +:+ ":" +:+ PyStr.fmt_02d m))
  ∧ (∀ s, convert_to_24h s = None
          ∨ ∃ h m, 0 <= h <= 23 ∧ 0 <= m <= 59
                   ∧ convert_to_24h s
                     = Some (PyStr.fmt_02d h +:+ ":" +:+ PyStr.fmt_02d m))
  ∧ (∀ s, ¬ begins_with_clock (cleaned s) → convert_to_24h s = None).
Proof.
  split_and!; try (vm_compute; reflexivity).
  - apply convert_clock_text.
  - intros s. destruct (convert_to_24h s) as [r|] eqn:E; [right|by left].
    destruct (convert_to_24h_valid s r E) as (h & m & ? & ? & -> & _).
    by exists h, m.
  - intros s N. destruct (convert_to_24h s) as [r|] eqn:E; [|done].
    destruct N. by eapply convert_to_24h_shape.
Qed.

(** C9: "1:05 PMx", which is not of the expected form, is parsed to 13:05;
    whatever follows the marker is ignored, and blanks and newlines inside the
    text do not make the parse fail. *)
Theorem trailing_text_is_ignored :
  SpecFormat.is_clock_text "1:05 PMx" = false
  ∧ convert_to_24h "1:05 PMx" = Some "13:05"
  ∧ (∀ suffix, convert_to_24h ("1:05 PM" +:+ suffix) = Some "13:05")
  ∧ convert_to_24h (" 1 : 0 5 " +:+ String LF "P M x y") = Some "13:05".
Proof.
  split_and!; try (vm_compute; reflexivity).
  apply convert_ignores_suffix.
Qed.

(** ** Dictionaries *)

Lemma dict_get_set k k' v d :
  dict_get k (dict_set k' v d)
  = if String.eqb k' k then Some v else dict_get k d.
Proof.
  induction d as [|[a b] d IH]; simpl.
  - done.
  - destruct (String.eqb_spec a k') as [->|N]; simpl.
    + by destruct (String.eqb k' k).
    + rewrite IH. destruct (String.eqb_spec a k) as [->|]; [|done].
      destruct (String.eqb_spec k' k); congruence.
Qed.

Lemma dict_get_elem k v d : dict_get k d = Some v → (k, v) ∈ d.
Proof.
  induction d as [|[a b] d IH]; simpl; [done|].
  destruct (String.eqb_spec a k) as [->|].
  - intros [= ->]. left.
  - intros. right. auto.
Qed.

Lemma dict_elem_get k v d : NoDup d.*1 → (k, v) ∈ d → dict_get k d = Some v.
Proof.
  induction d as [|[a b] d IH]; simpl.
  - intros _ H. by apply elem_of_nil in H.
  - intros [Na Nd]%NoDup_cons [[= -> ->]|H]%elem_of_cons.
    + by rewrite String.eqb_refl.
    + destruct (String.eqb_spec a k) as [->|]; [|auto].
      destruct Na. apply list_elem_of_fmap. by exists (k, v).
Qed.

Lemma dict_set_elem k v k' v' d :
  (k', v') ∈ dict_set k v d → (k', v') = (k, v) ∨ (k', v') ∈ d.
Proof.
  induction d as [|[a b] d IH]; simpl.
  - intros ->%list_elem_of_singleton. by left.
  - destruct (String.eqb_spec a k) as [->|].
    + intros [->|H]%elem_of_cons; [by left|]. right. by right.
    + intros [->|H]%elem_of_cons; [right; left|].
      destruct (IH H); [by left|]. right. by right.
Qed.

Lemma dict_set_keys k v k' d : k' ∈ (dict_set k v d).*1 ↔ k' = k ∨ k' ∈ d.*1.
Proof.
  induction d as [|[a b] d IH]; simpl.
  - rewrite list_elem_of_singleton. set_solver.
  - destruct (String.eqb_spec a k) as [->|]; simpl;
      rewrite !elem_of_cons; [|rewrite IH]; naive_solver.
Qed.

Lemma dict_set_NoDup k v d : NoDup d.*1 → NoDup (dict_set k v d).*1.
Proof.
  induction d as [|[a b] d IH]; simpl.
  - intros _. apply NoDup_singleton.
  - intros [Na Nd]%NoDup_cons.
    destruct (String.eqb_spec a k) as [->|]; simpl; apply NoDup_cons.
    + done.
    + split; [|auto]. rewrite dict_set_keys. naive_solver.
Qed.

Lemma dict_literal_NoDup entries : NoDup (dict_literal entries).*1.
Proof.
  unfold dict_literal.
  assert (∀ d, NoDup d.*1 →
    NoDup (foldl (fun d kv => dict_set kv.1 kv.2 d) d entries).*1) as G.
  { induction entries as [|e es IH]; simpl; [done|].
    intros d N. by apply IH, dict_set_NoDup. }
  apply G, NoDup_nil_2.
Qed.

(** ** Scraping *)

Lemma in_names_elem name names : in_names name names = true → name ∈ names.
Proof.
  unfold in_names. rewrite existsb_exists.
  intros (x & I & ->%String.eqb_eq). by apply list_elem_of_In.
Qed.

Lemma scrape_labels_step l rest d :
  scrape_labels (l :: rest) d
  = match label_step l with
    | Skip => scrape_labels rest d
    | Store k v => scrape_labels rest (dict_set k v d)
    | Abort => (d, Raised)
    end.
Proof.
  destruct l as [|text card]; simpl; [done|].
  destruct (negb _); [done|].
  destruct card; try done. by destruct (convert_to_24h _).
Qed.

Lemma label_step_store l k v :
  label_step l = Store k v →
  k ∈ PRAYER_NAMES ∧ ∃ raw, convert_to_24h raw = Some v.
Proof.
  destruct l as [|text card]; simpl; [done|].
  destruct (in_names (PyStr.strip text) PRAYER_NAMES) eqn:I; simpl; [|done].
  destruct card as [| |raw|]; try done.
  destruct (convert_to_24h (PyStr.strip raw)) eqn:C; [|done].
  intros [= <- <-]. split; [by apply in_names_elem|eauto].
Qed.

Lemma scrape_labels_abort before l after d :
  label_step l = Abort →
  (scrape_labels (before ++ l :: after) d).1 = (scrape_labels before d).1.
Proof.
  intros A. revert d.
  induction before as [|b before IH]; intros d; simpl app.
  - by rewrite scrape_labels_step, A.
  - rewrite !scrape_labels_step. destruct (label_step b); auto.
Qed.

Lemma scrape_labels_skip before l after d :
  label_step l = Skip →
  scrape_labels (before ++ l :: after) d = scrape_labels (before ++ after) d.
Proof.
  intros A. revert d.
  induction before as [|b before IH]; intros d; simpl app.
  - by rewrite scrape_labels_step, A.
  - rewrite !scrape_labels_step. destruct (label_step b); auto.
Qed.

Lemma scrape_labels_keeps labels d k :
  is_Some (dict_get k d) → is_Some (dict_get k (scrape_labels labels d).1).
Proof.
  revert d. induction labels as [|l labels IH]; intros d H; [done|].
  rewrite scrape_labels_step. destruct (label_step l); auto.
  apply IH. rewrite dict_get_set. by destruct (String.eqb _ _).
Qed.

Lemma scrape_labels_wf labels d :
  NoDup d.*1 → recognized d → valid_times d →
  let r := (scrape_labels labels d).1 in
  NoDup r.*1 ∧ recognized r ∧ valid_times r.
Proof.
  revert d. induction labels as [|l labels IH]; intros d N R V; [done|].
  rewrite scrape_labels_step.
  destruct (label_step l) as [|k v|] eqn:St; [by apply IH| |done].
  apply label_step_store in St as [Hk [raw Hv]].
  apply IH.
  - by apply dict_set_NoDup.
  - intros k' [->|?]%dict_set_keys; auto.
  - intros k' v' [[= -> ->]|?]%dict_set_elem; [|eauto].
    destruct (convert_to_24h_valid _ _ Hv) as (h & m & _ & _ & _ & P).
    by rewrite P.
Qed.

Lemma scrape_iqama_times_wf page :
  let r := scrape_iqama_times page in
  NoDup r.*1 ∧ recognized r ∧ valid_times r.
Proof.
  assert (NoDup ([] : dict).*1 ∧ recognized [] ∧ valid_times []) as E.
  { split_and!; [apply NoDup_nil_2|intros k H|intros k v H];
      by apply elem_of_nil in H. }
  destruct page as [|labels]; [exact E|].
  destruct E as (? & ? & ?). by apply scrape_labels_wf.
Qed.

(** C8: [scrape_iqama_times] is a function of the page to a mapping, whatever
    fails.  A page that cannot be loaded gives the empty mapping; an exception
    at a label ends the attempt with the entries stored before it; a text that
    does not parse drops that label alone; and an entry once stored is in the
    mapping returned. *)
Theorem scrape_never_discards :
  scrape_iqama_times PageRaises = []
  ∧ (∀ before text after,
       scrape_iqama_times (PageLabels (before ++ LabelRaises :: after))
       = scrape_iqama_times (PageLabels before)
       ∧ (in_names (PyStr.strip text) PRAYER_NAMES = true →
          scrape_iqama_times
            (PageLabels (before ++ Label text CardRaises :: after))
          = scrape_iqama_times (PageLabels before)))
  ∧ (∀ before text raw after,
       convert_to_24h (PyStr.strip raw) = None →
       scrape_iqama_times
         (PageLabels (before ++ Label text (RawTime raw) :: after))
       = scrape_iqama_times (PageLabels (before ++ after)))
  ∧ (∀ labels rest d k,
       is_Some (dict_get k (scrape_labels labels d).1) →
       (scrape_labels labels d).2 = Returned →
       is_Some (dict_get k (scrape_labels (labels ++ rest) d).1)).
Proof.
  split_and!.
  - done.
  - intros before text after. unfold scrape_iqama_times. simpl. split.
    + by apply scrape_labels_abort.
    + intros I. apply scrape_labels_abort. simpl. by rewrite I.
  - intros before text raw after C. unfold scrape_iqama_times. simpl.
    f_equal. apply scrape_labels_skip. simpl.
    destruct (negb _); [done|]. by rewrite C.
  - intros labels rest d k. revert d.
    induction labels as [|l labels IH]; intros d; simpl app.
    + intros H _. by apply scrape_labels_keeps.
    + rewrite !scrape_labels_step. destruct (label_step l); auto.
Qed.

(** ** Job ids *)

Lemma append_inj_l p s t : p +:+ s = p +:+ t → s = t.
Proof.
  induction p as [|a p IH]; [done|]. rewrite !append_cons.
  intros [= E]. auto.
Qed.

Lemma start_id_generation p : generation_id (start_id p) = true.
Proof. reflexivity. Qed.

Lemma end_id_generation p : generation_id (end_id p) = true.
Proof. reflexivity. Qed.

Lemma start_id_inj p q : start_id p = start_id q → p = q.
Proof. apply append_inj_l. Qed.

Lemma end_id_inj p q : end_id p = end_id q → p = q.
Proof. apply append_inj_l. Qed.

Lemma start_id_end_id p q : start_id p ≠ end_id q.
Proof. unfold start_id, end_id. norm_append. discriminate. Qed.

Lemma start_id_not_jumuah p :
  startswith (start_id p) "jumuah_" = false
  ∧ startswith (end_id p) "jumuah_" = false.
Proof. done. Qed.

(** ** The job store *)

Lemma remove_generation_lookup (js : jobstore) id :
  remove_generation js !! id = if generation_id id then None else js !! id.
Proof.
  unfold remove_generation. destruct (generation_id id) eqn:G.
  - apply map_lookup_filter_None. right. intros j _. simpl. congruence.
  - destruct (js !! id) as [j|] eqn:L.
    + by apply map_lookup_filter_Some.
    + apply map_lookup_filter_None. by left.
Qed.

(** ** The prayer loop *)

Section Loop.

Variables (is_friday : bool) (today : Z) (now : datetime).

Local Abbreviation loop := (schedule_prayers is_friday today now).
Local Abbreviation due_now := (due is_friday today now).
Local Abbreviation install_now := (install is_friday today now).

Lemma loop_cons p t rest js :
  loop ((p, t) :: rest) js
  = match parse_hm t with
    | None => (js, Raised)
    | Some _ => loop rest (install_now p t js)
    end.
Proof.
  unfold install, due. simpl.
  destruct (parse_hm t) as [[h m]|]; [|done].
  destruct (is_friday && String.eqb p "Dhuhr"); [done|].
  by destruct (dt_gt _ _).
Qed.

Lemma install_union p t (js : jobstore) : install_now p t js = install_now p t ∅ ∪ js.
Proof.
  unfold install. destruct (due_now p t).
  - by rewrite <- !insert_union_l, (left_id_L ∅ (∪)).
  - by rewrite (left_id_L ∅ (∪)).
Qed.

Lemma install_lookup p t (js : jobstore) id j :
  install_now p t js !! id = Some j →
  js !! id = Some j
  ∨ ∃ dt, due_now p t = Some dt
          ∧ ((id = start_id p ∧ j = start_job dt)
             ∨ (id = end_id p ∧ j = end_job dt)).
Proof.
  unfold install. destruct (due_now p t) as [dt|]; [|by left].
  rewrite !lookup_insert. repeat case_decide; subst.
  - intros [= <-]. right. exists dt. split; [done|]. by right.
  - intros [= <-]. right. exists dt. split; [done|]. by left.
  - by left.
Qed.

Lemma install_frame p t (js : jobstore) id :
  id ≠ start_id p → id ≠ end_id p → install_now p t js !! id = js !! id.
Proof.
  intros. unfold install. destruct (due_now p t); [|done].
  by rewrite !lookup_insert_ne.
Qed.

(** The loop writes on top of the store it is given. *)
Lemma loop_union d (js : jobstore) :
  (loop d js).1 = (loop d ∅).1 ∪ js ∧ (loop d js).2 = (loop d ∅).2.
Proof.
  revert js. induction d as [|[p t] d IH]; intros js.
  - simpl. by rewrite (left_id_L ∅ (∪)).
  - rewrite !loop_cons. destruct (parse_hm t).
    + destruct (IH (install_now p t js)) as [-> ->].
      destruct (IH (install_now p t ∅)) as [-> ->].
      split; [|done].
      by rewrite (install_union p t js), (assoc_L (∪)).
    + simpl. by rewrite (left_id_L ∅ (∪)).
Qed.

(** Whatever the loop leaves in the store was there before or belongs to an
    entry that is due_now. *)
Lemma loop_origin d (js : jobstore) id j :
  (loop d js).1 !! id = Some j →
  js !! id = Some j
  ∨ ∃ p t dt, (p, t) ∈ d ∧ due_now p t = Some dt
              ∧ ((id = start_id p ∧ j = start_job dt)
                 ∨ (id = end_id p ∧ j = end_job dt)).
Proof.
  revert js. induction d as [|[p t] d IH]; intros js; [by left|].
  rewrite loop_cons. destruct (parse_hm t); [|by left].
  intros [H|(q & u & dt & I & D & C)]%IH.
  - apply install_lookup in H as [H|(dt & D & C)]; [by left|].
    right. exists p, t, dt. split; [left|done].
  - right. exists q, u, dt. split; [by right|done].
Qed.

Lemma loop_frame d (js : jobstore) id :
  (∀ q, q ∈ d.*1 → id ≠ start_id q ∧ id ≠ end_id q) →
  (loop d js).1 !! id = js !! id.
Proof.
  revert js. induction d as [|[p t] d IH]; intros js F; [done|].
  rewrite loop_cons. destruct (parse_hm t); [|done].
  rewrite IH.
  - destruct (F p) as [? ?]; [left|]. by apply install_frame.
  - intros q I. apply F. by right.
Qed.

Lemma loop_returned d (js : jobstore) :
  (loop d js).2 = Returned ↔ valid_times d.
Proof.
  revert js. induction d as [|[p t] d IH]; intros js.
  - split; [|done]. intros _ k v H. by apply elem_of_nil in H.
  - rewrite loop_cons. destruct (parse_hm t) as [hm|] eqn:P.
    + rewrite IH. split.
      * intros V k v [[= -> ->]|I]%elem_of_cons; [by rewrite P|eauto].
      * intros V k v I. apply (V k). by right.
    + split; [done|]. intros V.
      destruct (V p t) as [x E]; [left|]. congruence.
Qed.

(** An entry that is due_now has its two jobs in the store the loop leaves. *)
Lemma loop_installs d (js : jobstore) p t dt :
  NoDup d.*1 → valid_times d → (p, t) ∈ d → due_now p t = Some dt →
  (loop d js).1 !! start_id p = Some (start_job dt)
  ∧ (loop d js).1 !! end_id p = Some (end_job dt).
Proof.
  revert js. induction d as [|[q u] d IH]; intros js N V I D.
  { by apply elem_of_nil in I. }
  rewrite loop_cons. destruct (V q u) as [hm ->]; [left|].
  apply NoDup_cons in N as [Nq Nd].
  assert (valid_times d) as Vd. { intros k v ?. apply (V k). by right. }
  apply elem_of_cons in I as [[= <- <-]|I]; [|by apply IH].
  assert (∀ r, r ∈ d.*1 → r ≠ p) as Np. { intros r ? ->. done. }
  rewrite !loop_frame.
  - unfold install. rewrite D. rewrite lookup_insert_ne, !lookup_insert_eq.
    + done.
    + intros E. by apply (start_id_end_id p p).
  - intros r Ir. split.
    + intros E. by apply (start_id_end_id r p).
    + intros E%end_id_inj. by apply (Np r).
  - intros r Ir. split.
    + intros E%start_id_inj. by apply (Np r).
    + apply start_id_end_id.
Qed.

(** An entry that is not due_now has no job in the store the loop leaves, if it
    had none before. *)
Lemma loop_omits d (js : jobstore) p t :
  NoDup d.*1 → (p, t) ∈ d → due_now p t = None →
  js !! start_id p = None → js !! end_id p = None →
  (loop d js).1 !! start_id p = None ∧ (loop d js).1 !! end_id p = None.
Proof.
  intros N I D Js Je.
  assert (∀ q u dt, (q, u) ∈ d → due_now q u = Some dt → q ≠ p) as Other.
  { intros q u dt Iq Dq ->.
    apply (dict_elem_get _ _ _ N) in I, Iq. congruence. }
  split; apply eq_None_not_Some; intros [j H];
    apply loop_origin in H as [H|(q & u & dt & Iq & Dq & [[E _]|[E _]])];
    try congruence.
  - apply start_id_inj in E. by eapply Other.
  - by apply (start_id_end_id p q).
  - by apply (start_id_end_id q p).
  - apply end_id_inj in E. by eapply Other.
Qed.

End Loop.

(** ** The merge *)

Lemma in_names_cons k n rest :
  in_names k (n :: rest) = String.eqb k n || in_names k rest.
Proof. reflexivity. Qed.

Lemma elem_in_names name names : name ∈ names → in_names name names = true.
Proof.
  intros I. unfold in_names. apply existsb_exists. exists name.
  split; [by apply list_elem_of_In|apply String.eqb_refl].
Qed.

Lemma merge_manual_get names manual d k :
  dict_get k (merge_manual names manual d)
  = match dict_get k d with
    | Some v => Some v
    | None => if in_names k names then dict_get k manual else None
    end.
Proof.
  revert d. induction names as [|n rest IH]; intros d; simpl.
  { by destruct (dict_get k d). }
  rewrite in_names_cons.
  destruct (dict_get n d) as [x|] eqn:Dn.
  - rewrite IH. destruct (dict_get k d) eqn:Dk; [done|].
    destruct (String.eqb_spec k n) as [->|]; [congruence|done].
  - destruct (dict_get n manual) as [v|] eqn:Mn.
    + rewrite IH, dict_get_set.
      destruct (String.eqb_spec n k) as [->|N].
      * by rewrite Dn, String.eqb_refl, Mn.
      * destruct (dict_get k d); [done|].
        destruct (String.eqb_spec k n); [congruence|done].
    + rewrite IH. destruct (dict_get k d); [done|].
      destruct (String.eqb_spec k n) as [->|]; [|done].
      simpl. rewrite Mn. by destruct (in_names n rest).
Qed.

Lemma merge_manual_NoDup names manual d :
  NoDup d.*1 → NoDup (merge_manual names manual d).*1.
Proof.
  revert d. induction names as [|n rest IH]; intros d N; simpl; [done|].
  destruct (dict_get n d); [auto|].
  destruct (dict_get n manual); [|auto]. by apply IH, dict_set_NoDup.
Qed.

Lemma merge_manual_elem names manual d k v :
  NoDup d.*1 →
  (k, v) ∈ merge_manual names manual d ↔
  dict_get k d = Some v
  ∨ (dict_get k d = None ∧ k ∈ names ∧ dict_get k manual = Some v).
Proof.
  intros N. pose proof (merge_manual_NoDup names manual d N) as N'.
  pose proof (merge_manual_get names manual d k) as G.
  split.
  - intros I%(dict_elem_get _ _ _ N'). rewrite I in G.
    destruct (dict_get k d); [left; congruence|right].
    destruct (in_names k names) eqn:In; [|done].
    split_and!; [done|by apply in_names_elem|done].
  - intros [E|(E & In%elem_in_names & M)]; apply dict_get_elem;
      rewrite G, E; [done|]. by rewrite In.
Qed.

(** The merged times of a cycle are a dict with distinct keys; its entries
    are scraped entries or manual entries of recognised names. *)
Lemma merged_times_NoDup i : NoDup (merged_times i).*1.
Proof. apply merge_manual_NoDup, scrape_iqama_times_wf. Qed.

Lemma merged_times_elem i k v :
  (k, v) ∈ merged_times i →
  (k, v) ∈ scrape_iqama_times (in_page i)
  ∨ (k ∈ PRAYER_NAMES ∧ (k, v) ∈ get_manual_iqama_times (in_manual i)).
Proof.
  unfold merged_times. rewrite merge_manual_elem
    by apply scrape_iqama_times_wf.
  intros [E|(_ & ? & E)]; apply dict_get_elem in E; auto.
Qed.

Lemma merged_times_recognized i : recognized (merged_times i).
Proof.
  intros k ((k' & v) & -> & I)%list_elem_of_fmap. simpl.
  apply merged_times_elem in I as [I|[? _]]; [|done].
  destruct (scrape_iqama_times_wf (in_page i)) as (_ & R & _).
  apply R, list_elem_of_fmap. by exists (k', v).
Qed.

(** ** One cycle *)

Lemma schedule_jumuah_eq today now (js : jobstore) :
  schedule_jumuah today now js = (install_jumuah true today now js, Returned).
Proof.
  unfold schedule_jumuah, install_jumuah.
  change (parse_hm JUMUAH_START) with (Some (13, 25)).
  change (parse_hm JUMUAH_END) with (Some (14, 15)).
  fold (jumuah_start_dt today). fold (jumuah_end_dt today). simpl.
  by destruct (dt_gt _ _).
Qed.

(** The three ways a cycle ends: no times at all, a time that cannot be
    read, or a full schedule followed by the switch to the default scene. *)
Lemma schedule_times_cases today now d w :
  let f := is_friday today in
  let js := (schedule_prayers f today now d (jobs w)).1 in
  (d = [] ∧ schedule_times today now d w = (w, Returned))
  ∨ (d ≠ [] ∧ ¬ valid_times d
     ∧ schedule_times today now d w = (mk_world js (scene_calls w), Raised))
  ∨ (d ≠ [] ∧ valid_times d
     ∧ schedule_times today now d w
       = (switch_to_default
            (mk_world (install_jumuah f today now js) (scene_calls w)),
          Returned)).
Proof.
  intros f js. destruct d as [|e d]; [by left|right].
  unfold schedule_times. fold (is_friday today). fold f.
  pose proof (loop_returned f today now (e :: d) (jobs w)) as R.
  subst js. destruct (schedule_prayers f today now (e :: d) (jobs w))
    as [js [|]]; simpl in *.
  - right. split_and!; [done|by apply R|].
    destruct f; [by rewrite schedule_jumuah_eq|done].
  - left. split_and!; [done| |done]. intros V. by apply R in V.
Qed.

Lemma install_jumuah_lookup f today now (js : jobstore) id j :
  install_jumuah f today now js !! id = Some j →
  js !! id = Some j
  ∨ (f = true ∧ dt_gt (jumuah_start_dt today) now = true
     ∧ ((id = "jumuah_start" ∧ j = jumuah_start_job today)
        ∨ (id = "jumuah_end" ∧ j = jumuah_end_job today))).
Proof.
  unfold install_jumuah. destruct f; [|by left]. simpl.
  destruct (dt_gt _ _); [|by left].
  rewrite !lookup_insert. repeat case_decide; subst.
  - intros [= <-]. right. split_and!; try done. by right.
  - intros [= <-]. right. split_and!; try done. by left.
  - by left.
Qed.

Lemma install_jumuah_frame f today now (js : jobstore) id :
  startswith id "jumuah_" = false →
  install_jumuah f today now js !! id = js !! id.
Proof.
  intros S. unfold install_jumuah. destruct (_ && _); [|done].
  rewrite !lookup_insert_ne; [done|intros <-; done..].
Qed.

Lemma install_jumuah_union f today now (js : jobstore) :
  install_jumuah f today now js = install_jumuah f today now ∅ ∪ js.
Proof.
  unfold install_jumuah. destruct (_ && _).
  - by rewrite <- !insert_union_l, (left_id_L ∅ (∪)).
  - by rewrite (left_id_L ∅ (∪)).
Qed.

(** Where a job in the store after a cycle comes from: it is an older job
    that is not of a generation, or a job of an entry that is due, or a job
    of the Friday window. *)
Lemma schedule_today_origin i w id j :
  let today := in_today i in
  let now := in_now i in
  jobs (schedule_today i w).1 !! id = Some j →
  (generation_id id = false ∧ jobs w !! id = Some j)
  ∨ (∃ p t dt, (p, t) ∈ merged_times i
               ∧ due (is_friday today) today now p t = Some dt
               ∧ ((id = start_id p ∧ j = start_job dt)
                  ∨ (id = end_id p ∧ j = end_job dt)))
  ∨ (merged_times i ≠ [] ∧ (schedule_today i w).2 = Returned
     ∧ is_friday today = true ∧ dt_gt (jumuah_start_dt today) now = true
     ∧ ((id = "jumuah_start" ∧ j = jumuah_start_job today)
        ∨ (id = "jumuah_end" ∧ j = jumuah_end_job today))).
Proof.
  intros today now. unfold schedule_today. fold today now.
  assert (∀ js, js = remove_generation (jobs w) → js !! id = Some j →
                generation_id id = false ∧ jobs w !! id = Some j) as Old.
  { intros js -> H. rewrite remove_generation_lookup in H.
    by destruct (generation_id id). }
  destruct (schedule_times_cases today now (merged_times i)
              (remove_prayer_jobs w))
    as [[_ ->]|[(_ & _ & ->)|(Ne & _ & ->)]]; simpl.
  - intros H. left. by eapply Old.
  - intros [H|H]%loop_origin; [left; by eapply Old|by right; left].
  - intros [[H|H]%loop_origin|(F & G & C)]%install_jumuah_lookup.
    + left. by eapply Old.
    + by right; left.
    + right; right. done.
Qed.

(** C1 fails on the code: with no time from the page and none in the manual
    table the cycle returns before the switch to the default scene.  It asks
    nothing of OBS, whatever the day and the hour; run at noon while a prayer
    is on, it removes the pending way back and leaves the prayer scene. *)
Theorem no_times_no_default_scene :
  (∀ today now w,
     schedule_today (mk_input today now PageRaises []) w
     = (remove_prayer_jobs w, Returned))
  ∧ scene_calls (schedule_today noon_no_times mid_prayer).1 = [SCENE_PRAYER]
  ∧ jobs mid_prayer !! "prayer_end_Dhuhr"
    = Some (mk_job SwitchToDefault (DateTrigger (combine 738888 12 5)))
  ∧ jobs (schedule_today noon_no_times mid_prayer).1 !! "prayer_end_Dhuhr"
    = None.
Proof.
  split_and!.
  - done.
  - done.
  - unfold mid_prayer. simpl. by rewrite lookup_insert_eq.
  - change (schedule_today noon_no_times mid_prayer)
      with (remove_prayer_jobs mid_prayer, Returned).
    simpl. by rewrite remove_generation_lookup.
Qed.

(** C2 fails on the code: on a Friday at 05:00, before the window starts,
    with no time from the page and none in the manual table, the cycle
    returns before the Friday block and the store holds no window job. *)
Theorem no_times_no_jumuah :
  is_friday (in_today friday_no_times) = true
  ∧ dt_gt (jumuah_start_dt (in_today friday_no_times))
      (in_now friday_no_times) = true
  ∧ merged_times friday_no_times = []
  ∧ ∀ w, (schedule_today friday_no_times w).2 = Returned
         ∧ jobs (schedule_today friday_no_times w).1 !! "jumuah_start" = None
         ∧ jobs (schedule_today friday_no_times w).1 !! "jumuah_end" = None.
Proof.
  split_and!; [done..|]. intros w.
  change (schedule_today friday_no_times w)
    with (remove_prayer_jobs w, Returned).
  simpl. by rewrite !remove_generation_lookup.
Qed.

(** With a time to schedule, the Friday block runs: the window is in the
    store when it starts after [now]. *)
Lemma jumuah_installed i w :
  merged_times i ≠ [] → (schedule_today i w).2 = Returned →
  is_friday (in_today i) = true →
  dt_gt (jumuah_start_dt (in_today i)) (in_now i) = true →
  jobs (schedule_today i w).1 !! "jumuah_start"
  = Some (jumuah_start_job (in_today i))
  ∧ jobs (schedule_today i w).1 !! "jumuah_end"
    = Some (jumuah_end_job (in_today i)).
Proof.
  intros Ne R F G. unfold schedule_today in *.
  destruct (schedule_times_cases (in_today i) (in_now i) (merged_times i)
              (remove_prayer_jobs w))
    as [[? _]|[(_ & _ & E)|(_ & _ & E)]]; [done|by rewrite E in R|].
  rewrite E. simpl. unfold install_jumuah. rewrite F, G. simpl.
  by rewrite lookup_insert_ne, !lookup_insert_eq.
Qed.

(** ** Replacing a generation *)

Lemma schedule_times_union today now d w :
  jobs (schedule_times today now d w).1
  = jobs (schedule_times today now d (mk_world ∅ [])).1 ∪ jobs w.
Proof.
  pose proof (loop_union (is_friday today) today now d (jobs w)) as [U _].
  destruct (schedule_times_cases today now d w)
    as [[E ->]|[(Ne & N & ->)|(Ne & V & ->)]];
  destruct (schedule_times_cases today now d (mk_world ∅ []))
    as [[E' ->]|[(Ne' & N' & ->)|(Ne' & V' & ->)]];
    try contradiction; simpl.
  - by rewrite (left_id_L ∅ (∪)).
  - exact U.
  - by rewrite install_jumuah_union, U, (assoc_L (∪)),
      <- install_jumuah_union.
Qed.

Lemma schedule_today_frame i w id :
  generation_id id = false →
  jobs (schedule_today i w).1 !! id = jobs w !! id.
Proof.
  intros G. destruct (jobs (schedule_today i w).1 !! id) as [j|] eqn:L.
  - apply schedule_today_origin in L
      as [[_ ->]|[(p & t & dt & _ & _ & [[-> _]|[-> _]])
                  |(_ & _ & _ & _ & [[-> _]|[-> _]])]]; done.
  - unfold schedule_today in L. rewrite schedule_times_union in L.
    apply lookup_union_None in L as [_ L]. simpl in L.
    rewrite remove_generation_lookup, G in L. done.
Qed.

Lemma step_triggers w e : triggers_present w → triggers_present (step w e).
Proof.
  intros [D M]. destruct e as [i|id]; simpl.
  - split; by rewrite schedule_today_frame.
  - destruct (jobs w !! id) as [[f [dt|h m]]|] eqn:L; [|by split..].
    assert (id ≠ "daily_refresh" ∧ id ≠ "midday_refresh") as [? ?].
    { split; intros ->; congruence. }
    assert (∀ x, jobs (call f x) = jobs x) as C. { by destruct f. }
    split; rewrite C; simpl; by rewrite lookup_delete_ne.
Qed.

(** C3: at the point where a cycle starts to install jobs, no job with a
    [prayer_] or [jumuah_] id is left; the store after the cycle is what the
    cycle installs into an empty store, laid over the older jobs with other
    ids; no job with another id is changed; and after [main] has installed
    them, the two recurring triggers are in the store after any sequence of
    cycles and firings. *)
Theorem generation_replaced_triggers_kept :
  (∀ w id, generation_id id = true → jobs (remove_prayer_jobs w) !! id = None)
  ∧ (∀ i w, jobs (schedule_today i w).1
            = jobs (schedule_today i (mk_world ∅ [])).1
              ∪ remove_generation (jobs w))
  ∧ (∀ i w id, generation_id id = false →
               jobs (schedule_today i w).1 !! id = jobs w !! id)
  ∧ (∀ events, triggers_present (run started events)).
Proof.
  split_and!.
  - intros w id G. simpl. by rewrite remove_generation_lookup, G.
  - intros i w. unfold schedule_today.
    rewrite schedule_times_union. simpl.
    unfold remove_prayer_jobs, remove_generation at 2. simpl.
    by rewrite map_filter_empty.
  - apply schedule_today_frame.
  - intros events. unfold run.
    assert (triggers_present started) as I.
    { unfold triggers_present, started, install_triggers, add_job. simpl.
      split; [by rewrite lookup_insert_ne, lookup_insert_eq
             |by rewrite lookup_insert_eq]. }
    revert I. generalize started.
    induction events as [|e events IH]; intros w I; [done|].
    simpl. by apply IH, step_triggers.
Qed.

(** ** What a cycle schedules *)

Lemma due_dhuhr_friday today now t : due true today now "Dhuhr" t = None.
Proof. unfold due. by destruct (parse_hm t) as [[h m]|]. Qed.

Lemma is_friday_weekday today : is_friday today = true ↔ weekday today = 4.
Proof. apply Z.eqb_eq. Qed.

(** C5: on a Friday the store after a cycle holds no job of Dhuhr's own,
    neither [prayer_start_Dhuhr] nor [prayer_end_Dhuhr], whatever the page
    and the manual table give, however the cycle ends. *)
Theorem dhuhr_not_scheduled_on_friday i w :
  weekday (in_today i) = 4 →
  jobs (schedule_today i w).1 !! "prayer_start_Dhuhr" = None
  ∧ jobs (schedule_today i w).1 !! "prayer_end_Dhuhr" = None.
Proof.
  intros F%is_friday_weekday.
  split; apply eq_None_not_Some; intros [j H];
    apply schedule_today_origin in H
      as [[G _]|[(p & t & dt & _ & D & C)|(_ & _ & _ & _ & [[E _]|[E _]])]];
    try done; rewrite F in D.
  - destruct C as [[E _]|[E _]].
    + apply (start_id_inj "Dhuhr") in E as <-.
      by rewrite due_dhuhr_friday in D.
    + by apply (start_id_end_id "Dhuhr" p).
  - destruct C as [[E _]|[E _]].
    + by apply (start_id_end_id p "Dhuhr").
    + apply (end_id_inj "Dhuhr") in E as <-.
      by rewrite due_dhuhr_friday in D.
Qed.

Lemma dhuhr_not_scheduled_on_friday_witness :
  weekday 738890 = 4
  ∧ jobs (schedule_today
            (mk_input 738890 (combine 738890 5 0) PageRaises
               [("Dhuhr", "13:00"); ("Asr", "16:45")])
            started).1 !! "prayer_start_Dhuhr" = None.
Proof.
  split; [reflexivity|].
  apply (dhuhr_not_scheduled_on_friday
           (mk_input 738890 (combine 738890 5 0) PageRaises
              [("Dhuhr", "13:00"); ("Asr", "16:45")]) started).
  reflexivity.
Defined.

(** C10: on a Friday, once the window's start is not after [now], the store
    after a cycle holds no [jumuah_] job at all, so no way back at the
    window's end, also when [now] is still before that end. *)
Theorem late_friday_no_window i w :
  weekday (in_today i) = 4 →
  dt_gt (jumuah_start_dt (in_today i)) (in_now i) = false →
  ∀ id, startswith id "jumuah_" = true →
        jobs (schedule_today i w).1 !! id = None.
Proof.
  intros F G id S. apply eq_None_not_Some. intros [j H].
  apply schedule_today_origin in H
    as [[Gen _]|[(p & t & dt & _ & _ & C)|(_ & _ & _ & G' & _)]].
  - unfold generation_id in Gen. rewrite S in Gen.
    by rewrite orb_true_r in Gen.
  - destruct (start_id_not_jumuah p) as [? ?].
    destruct C as [[-> _]|[-> _]]; congruence.
  - congruence.
Qed.

Lemma late_friday_no_window_witness :
  dt_gt (jumuah_end_dt 738890) (combine 738890 13 30) = true
  ∧ jobs (schedule_today
            (mk_input 738890 (combine 738890 13 30) PageRaises
               [("Asr", "16:45")])
            started).1 !! "jumuah_end" = None.
Proof.
  split; [reflexivity|].
  apply (late_friday_no_window
           (mk_input 738890 (combine 738890 13 30) PageRaises
              [("Asr", "16:45")]) started);
    reflexivity.
Defined.

Lemma schedule_today_returned i w :
  (schedule_today i w).2 = Returned →
  (merged_times i = [] ∧ (schedule_today i w).1 = remove_prayer_jobs w)
  ∨ (valid_times (merged_times i)
     ∧ jobs (schedule_today i w).1
       = install_jumuah (is_friday (in_today i)) (in_today i) (in_now i)
           (schedule_prayers (is_friday (in_today i)) (in_today i) (in_now i)
              (merged_times i) (remove_generation (jobs w))).1).
Proof.
  unfold schedule_today.
  destruct (schedule_times_cases (in_today i) (in_now i) (merged_times i)
              (remove_prayer_jobs w))
    as [[E ->]|[(_ & _ & ->)|(_ & V & ->)]]; [by left|done|by right].
Qed.

(** For a [now] read on the day itself the test is on the time of day. *)
Lemma dt_gt_same_day today h m now :
  dt_date now = today →
  dt_gt (combine today h m) now = (dt_us now <? (h * 60 + m) * us_per_minute).
Proof.
  intros <-. unfold dt_gt, dt_key, combine. simpl.
  destruct (Z.ltb_spec (dt_us now) ((h * 60 + m) * us_per_minute));
    [apply Z.ltb_lt|apply Z.ltb_ge]; lia.
Qed.

(** C6: when the cycle returns, every merged entry that the Friday rule
    leaves in has a time that reads as [h:m]; if that time today is after
    [now], the store holds its two jobs, the switch to the prayer scene at
    that time and the switch back [PRAYER_DURATION_MINUTES] later; if it is
    not, the store holds neither.  And every [prayer_] job in the store is
    one of the two jobs of a merged entry that is due. *)
Theorem event_scheduled_iff_future i w p t :
  (schedule_today i w).2 = Returned →
  (p, t) ∈ merged_times i →
  ¬ (weekday (in_today i) = 4 ∧ p = "Dhuhr") →
  let js := jobs (schedule_today i w).1 in
  (∃ h m, parse_hm t = Some (h, m)
     ∧ let dt := combine (in_today i) h m in
       if dt_gt dt (in_now i) then
         js !! start_id p = Some (mk_job SwitchToPrayer (DateTrigger dt))
         ∧ js !! end_id p
           = Some (mk_job SwitchToDefault
                     (DateTrigger (add_minutes dt PRAYER_DURATION_MINUTES)))
       else js !! start_id p = None ∧ js !! end_id p = None)
  ∧ (∀ id j, startswith id "prayer_" = true → js !! id = Some j →
       ∃ q u dt, (q, u) ∈ merged_times i
         ∧ due (is_friday (in_today i)) (in_today i) (in_now i) q u = Some dt
         ∧ ((id = start_id q ∧ j = start_job dt)
            ∨ (id = end_id q ∧ j = end_job dt))).
Proof.
  intros R I NotSkipped js. split.
  - destruct (schedule_today_returned i w R) as [[E _]|[V J]].
    { rewrite E in I. by apply elem_of_nil in I. }
    destruct (V p t I) as [[h m] P]. exists h, m. split; [done|].
    destruct (start_id_not_jumuah p) as [Ns Ne].
    subst js. rewrite J, !install_jumuah_frame by done.
    assert (is_friday (in_today i) && String.eqb p "Dhuhr" = false) as Sk.
    { apply andb_false_iff.
      destruct (is_friday (in_today i)) eqn:F; [right|by left].
      apply String.eqb_neq. intros ->. apply NotSkipped.
      by rewrite <- is_friday_weekday. }
    pose proof (merged_times_NoDup i) as N. cbv zeta.
    destruct (dt_gt (combine (in_today i) h m) (in_now i)) eqn:G.
    + eapply loop_installs; try done. unfold due. by rewrite P, Sk, G.
    + eapply loop_omits; try done.
      * unfold due. by rewrite P, Sk, G.
      * by rewrite remove_generation_lookup, start_id_generation.
      * by rewrite remove_generation_lookup, end_id_generation.
  - intros id j S H. subst js.
    apply schedule_today_origin in H
      as [[G _]|[H|(_ & _ & _ & _ & [[-> _]|[-> _]])]]; try done.
    unfold generation_id in G. by rewrite S in G.
Qed.

Lemma event_scheduled_iff_future_witness :
  let i := mk_input 738888 (combine 738888 5 0) PageRaises
             [("Fajr", "04:30"); ("Dhuhr", "13:00")] in
  let js := jobs (schedule_today i started).1 in
  (js !! "prayer_start_Dhuhr"
   = Some (mk_job SwitchToPrayer (DateTrigger (combine 738888 13 0))))
  ∧ js !! "prayer_end_Dhuhr"
    = Some (mk_job SwitchToDefault (DateTrigger (combine 738888 13 10))).
Proof.
  intros i js.
  assert ((schedule_today i started).2 = Returned) as R by reflexivity.
  assert (("Dhuhr", "13:00") ∈ merged_times i) as I.
  { apply list_elem_of_In. vm_compute. auto. }
  assert (¬ (weekday (in_today i) = 4 ∧ "Dhuhr" = "Dhuhr")) as N.
  { intros [F _]. vm_compute in F. discriminate F. }
  destruct (event_scheduled_iff_future i started "Dhuhr" "13:00" R I N)
    as [(h & m & P & H) _].
  vm_compute in P. injection P as <- <-. exact H.
Defined.

(** ** The manual table alone *)

Section SameEntries.

Variables (f : bool) (today : Z) (now : datetime).
Variables d1 d2 : dict.
Hypothesis N1 : NoDup d1.*1.
Hypothesis N2 : NoDup d2.*1.
Hypothesis V1 : valid_times d1.
Hypothesis V2 : valid_times d2.
Hypothesis Same : ∀ k v, (k, v) ∈ d1 ↔ (k, v) ∈ d2.

Local Abbreviation loop := (schedule_prayers f today now).

Lemma loop_same_entries_sub da db (js : jobstore) id j :
  NoDup da.*1 → NoDup db.*1 → valid_times da → valid_times db →
  (∀ k v, (k, v) ∈ da ↔ (k, v) ∈ db) →
  (loop da js).1 !! id = Some j → (loop db js).1 !! id = Some j.
Proof.
  intros Na Nb Va Vb S H.
  assert (∀ p t dt, (p, t) ∈ db → due f today now p t = Some dt →
            (id = start_id p ∧ j = start_job dt)
            ∨ (id = end_id p ∧ j = end_job dt) →
            (loop db js).1 !! id = Some j) as Entry.
  { intros p t dt I D C.
    destruct (loop_installs f today now db js p t dt Nb Vb I D) as [Hs He].
    by destruct C as [[-> ->]|[-> ->]]. }
  pose proof H as H0.
  apply loop_origin in H as [H|(p & t & dt & I & D & C)].
  - destruct ((loop db js).1 !! id) as [j'|] eqn:L.
    + apply loop_origin in L as [L|(p & t & dt & I & D & C)]; [congruence|].
      apply S in I.
      destruct (loop_installs f today now da js p t dt Na Va I D) as [Hs He].
      destruct C as [[-> ->]|[-> ->]]; congruence.
    + destruct (loop_union f today now db js) as [U _]. rewrite U in L.
      apply lookup_union_None in L as [_ L]. congruence.
  - eapply Entry; [by apply S|done..].
Qed.

Lemma loop_same_entries (js : jobstore) : loop d1 js = loop d2 js.
Proof.
  apply injective_projections.
  - apply map_eq. intros id. apply option_eq. intros j. split.
    + by apply loop_same_entries_sub.
    + by apply loop_same_entries_sub.
  - pose proof (proj2 (loop_returned f today now d1 js) V1) as R1.
    pose proof (proj2 (loop_returned f today now d2 js) V2) as R2.
    congruence.
Qed.

End SameEntries.

Lemma schedule_times_same_entries today now d1 d2 w :
  NoDup d1.*1 → NoDup d2.*1 → valid_times d1 → valid_times d2 →
  (∀ k v, (k, v) ∈ d1 ↔ (k, v) ∈ d2) →
  schedule_times today now d1 w = schedule_times today now d2 w.
Proof.
  intros N1 N2 V1 V2 S.
  pose proof (loop_same_entries (is_friday today) today now d1 d2
                N1 N2 V1 V2 S (jobs w)) as L.
  assert (d1 = [] ↔ d2 = []) as Nil.
  { split; intros ->.
    - destruct d2 as [|[k v] d2]; [done|].
      assert ((k, v) ∈ ([] : dict)) as H by (apply S; left).
      by apply elem_of_nil in H.
    - destruct d1 as [|[k v] d1]; [done|].
      assert ((k, v) ∈ ([] : dict)) as H by (apply S; left).
      by apply elem_of_nil in H. }
  destruct (schedule_times_cases today now d1 w)
    as [[E1 ->]|[(Ne1 & X1 & ->)|(Ne1 & _ & ->)]];
  destruct (schedule_times_cases today now d2 w)
    as [[E2 ->]|[(Ne2 & X2 & ->)|(Ne2 & _ & ->)]];
    try contradiction; try tauto.
  by rewrite L.
Qed.

(** C7: an event that the page gave keeps the page's time in the merged
    times, whatever the manual table says; an event of [PRAYER_NAMES] that the
    page did not give takes the manual table's time.  When the page gave
    nothing, and the manual table holds recognised events with times that
    read, the cycle does what the rest of [schedule_today] does on the manual
    table itself. *)
Theorem scraped_wins_manual_fills :
  (∀ i p v, dict_get p (scrape_iqama_times (in_page i)) = Some v →
            dict_get p (merged_times i) = Some v)
  ∧ (∀ i p, dict_get p (scrape_iqama_times (in_page i)) = None →
            p ∈ PRAYER_NAMES →
            dict_get p (merged_times i)
            = dict_get p (get_manual_iqama_times (in_manual i)))
  ∧ (∀ i w, scrape_iqama_times (in_page i) = [] →
            recognized (get_manual_iqama_times (in_manual i)) →
            valid_times (get_manual_iqama_times (in_manual i)) →
            schedule_today i w
            = schedule_times (in_today i) (in_now i)
                (get_manual_iqama_times (in_manual i))
                (remove_prayer_jobs w)).
Proof.
  split_and!.
  - intros i p v H. unfold merged_times. by rewrite merge_manual_get, H.
  - intros i p H I%elem_in_names. unfold merged_times.
    by rewrite merge_manual_get, H, I.
  - intros i w E R V. unfold schedule_today, merged_times. rewrite E.
    set (M := get_manual_iqama_times (in_manual i)) in *.
    assert (NoDup M.*1) as NM by apply dict_literal_NoDup.
    assert (NoDup ([] : dict).*1) as N0 by apply NoDup_nil_2.
    assert (∀ k v, (k, v) ∈ merge_manual PRAYER_NAMES M [] ↔ (k, v) ∈ M)
      as S.
    { intros k v. rewrite (merge_manual_elem _ _ _ _ _ N0). simpl. split.
      - intros [?|(_ & _ & G)]; [done|by apply dict_get_elem].
      - intros I. right. split_and!; [done| |by apply dict_elem_get].
        apply R, list_elem_of_fmap. by exists (k, v). }
    apply schedule_times_same_entries; try done.
    + by apply merge_manual_NoDup.
    + intros k v I%S. by apply (V k).
Qed.

Lemma scraped_wins_manual_fills_witness :
  let i := mk_input 738888 (combine 738888 5 0) PageRaises
             [("Isha", "20:00"); ("Fajr", "06:15")] in
  schedule_today i started
  = schedule_times 738888 (combine 738888 5 0)
      [("Isha", "20:00"); ("Fajr", "06:15")] (remove_prayer_jobs started).
Proof.
  intros i.
  apply (proj2 (proj2 scraped_wins_manual_fills) i started).
  - reflexivity.
  - intros k H. apply list_elem_of_In in H. apply list_elem_of_In.
    vm_compute in H. vm_compute. intuition.
  - intros k v H. apply list_elem_of_In in H. vm_compute in H.
    destruct H as [[= <- <-]|[[= <- <-]|[]]]; vm_compute; eauto.
Defined.

(** * Further properties of the code *)

(** ** The time parser *)

Lemma width_table :
  forallb (fun h => forallb (width_ok h) (seqZ 0 60)) (seqZ 0 24) = true.
Proof. vm_compute. reflexivity. Qed.

Lemma reading_table :
  all_texts (seqZ 0 100) (seqZ 0 100) reading_ok markers = true.
Proof. vm_compute. reflexivity. Qed.

Lemma mixed_table :
  all_texts (seqZ 1 12) (seqZ 0 60) mixed_ok mixed_markers = true.
Proof. vm_compute. reflexivity. Qed.

Lemma all_texts_lookup hs ms ok names h m k :
  all_texts hs ms ok names = true →
  h ∈ hs → m ∈ ms → k ∈ names → ok h m k = true.
Proof.
  unfold all_texts. intros T Hh Hm Hk. rewrite forallb_forall in T.
  apply list_elem_of_In in Hh, Hm, Hk.
  specialize (T h Hh). rewrite forallb_forall in T.
  specialize (T m Hm). rewrite forallb_forall in T. by apply T.
Qed.

(** X1: a value of the parser is five characters wide and the reader of
    [schedule_today] gets the same hour and minute back from it. *)
Theorem converted_time_is_read_back s r :
  convert_to_24h s = Some r →
  String.length r = 5%nat
  ∧ ∃ h m, 0 <= h <= 23 ∧ 0 <= m <= 59 ∧ parse_hm r = Some (h, m)
           ∧ r = PyStr.fmt_02d h +:+ ":" +:+ PyStr.fmt_02d m.
Proof.
  intros C. destruct (convert_to_24h_valid s r C) as (h & m & Hh & Hm & -> & P).
  split; [|by exists h, m].
  pose proof width_table as T. rewrite forallb_forall in T.
  assert (In h (seqZ 0 24)) as Ih.
  { apply list_elem_of_In, elem_of_seqZ. lia. }
  specialize (T h Ih). rewrite forallb_forall in T.
  assert (In m (seqZ 0 60)) as Im.
  { apply list_elem_of_In, elem_of_seqZ. lia. }
  specialize (T m Im). by apply bool_decide_eq_true in T.
Qed.

Lemma converted_time_is_read_back_witness :
  convert_to_24h "7:05 pm" = Some "19:05"
  ∧ String.length "19:05" = 5%nat
  ∧ ∃ h m, 0 <= h <= 23 ∧ 0 <= m <= 59 ∧ parse_hm "19:05" = Some (h, m)
           ∧ "19:05" = PyStr.fmt_02d h +:+ ":" +:+ PyStr.fmt_02d m.
Proof.
  split; [reflexivity|].
  apply (converted_time_is_read_back "7:05 pm" "19:05"). reflexivity.
Defined.

(** X2: a blank or a newline anywhere in the text changes nothing. *)
Theorem blanks_and_newlines_are_ignored s1 s2 :
  convert_to_24h (s1 +:+ String " " s2) = convert_to_24h (s1 +:+ s2)
  ∧ convert_to_24h (s1 +:+ String LF s2) = convert_to_24h (s1 +:+ s2).
Proof.
  unfold convert_to_24h. cbv zeta. rewrite !remove_char_app.
  change (PyStr.remove_char LF (String " " s2))
    with (String " " (PyStr.remove_char LF s2)).
  change (PyStr.remove_char LF (String LF s2)) with (PyStr.remove_char LF s2).
  change (PyStr.remove_char " " (String " " (PyStr.remove_char LF s2)))
    with (PyStr.remove_char " " (PyStr.remove_char LF s2)).
  done.
Qed.

(** X3: the text of any hour up to 99 and minute up to 99 with one of the
    four markers is read as the code computes it: hour 0 reads as hour 12
    does, an AM hour of 13 to 23 is kept as it is, and a PM hour above 12, an
    hour above 23 or a minute above 59 gives no value. *)
Theorem clock_text_reading h m marker :
  0 <= h <= 99 → 0 <= m <= 99 → marker ∈ markers →
  convert_to_24h (clock_text h m marker) = reading h m marker.
Proof.
  intros Hh Hm Hk.
  assert (reading_ok h m marker = true) as T.
  { eapply all_texts_lookup; [apply reading_table|..|done];
      apply elem_of_seqZ; lia. }
  by apply bool_decide_eq_true in T.
Qed.

Lemma clock_text_reading_witness :
  convert_to_24h "13:05 AM" = Some "13:05"
  ∧ convert_to_24h "0:30 PM" = Some "12:30"
  ∧ convert_to_24h "7:60 AM" = None.
Proof.
  split_and!.
  - apply (clock_text_reading 13 5 "AM"); [lia|lia|].
    apply list_elem_of_In. simpl. auto.
  - apply (clock_text_reading 0 30 "PM"); [lia|lia|].
    apply list_elem_of_In. simpl. auto.
  - apply (clock_text_reading 7 60 "AM"); [lia|lia|].
    apply list_elem_of_In. simpl. auto.
Defined.

(** X4: the marker is not read case-insensitively: a text of the expected
    form whose marker is in mixed case gives no value. *)
Theorem mixed_case_marker_rejected h m marker :
  1 <= h <= 12 → 0 <= m <= 59 → marker ∈ mixed_markers →
  convert_to_24h (clock_text h m marker) = None.
Proof.
  intros Hh Hm Hk.
  assert (mixed_ok h m marker = true) as T.
  { eapply all_texts_lookup; [apply mixed_table|..|done];
      apply elem_of_seqZ; lia. }
  by apply bool_decide_eq_true in T.
Qed.

Lemma mixed_case_marker_rejected_witness : convert_to_24h "1:05 Pm" = None.
Proof.
  apply (mixed_case_marker_rejected 1 5 "Pm"); [lia|lia|].
  apply list_elem_of_In. simpl. auto.
Defined.

(** ** Scraping, merging and the cycle *)

Lemma add_minutes_key d n :
  dt_key (add_minutes d n) = dt_key d + n * us_per_minute.
Proof.
  unfold dt_key, add_minutes, us_per_day. simpl.
  pose proof (Z.div_mod (dt_us d + n * us_per_minute) 86400000000 ltac:(lia)).
  lia.
Qed.

(** X6: a label whose name is not in [PRAYER_NAMES] changes nothing, whatever
    its card holds: the card is not looked at, so not even an exception in it
    is met. *)
Theorem unrecognised_label_is_skipped before text card after :
  in_names (PyStr.strip text) PRAYER_NAMES = false →
  scrape_iqama_times (PageLabels (before ++ Label text card :: after))
  = scrape_iqama_times (PageLabels (before ++ after)).
Proof.
  intros I. unfold scrape_iqama_times. simpl. f_equal.
  apply scrape_labels_skip. simpl. by rewrite I.
Qed.

Lemma unrecognised_label_is_skipped_witness :
  in_names (PyStr.strip "Sunrise") PRAYER_NAMES = false
  ∧ scrape_iqama_times
      (PageLabels [Label "Fajr" (RawTime "6:15 AM");
                   Label "Sunrise" CardRaises;
                   Label "Asr" (RawTime "4:45 PM")])
    = scrape_iqama_times
        (PageLabels [Label "Fajr" (RawTime "6:15 AM");
                     Label "Asr" (RawTime "4:45 PM")]).
Proof.
  split; [reflexivity|].
  apply (unrecognised_label_is_skipped
           [Label "Fajr" (RawTime "6:15 AM")] "Sunrise" CardRaises
           [Label "Asr" (RawTime "4:45 PM")]).
  reflexivity.
Defined.

Lemma scrape_labels_app before rest d :
  (scrape_labels before d).2 = Returned →
  scrape_labels (before ++ rest) d
  = scrape_labels rest (scrape_labels before d).1.
Proof.
  revert d. induction before as [|l before IH]; intros d; [done|].
  simpl app. rewrite !scrape_labels_step. destruct (label_step l); auto.
  done.
Qed.

Lemma scrape_labels_other name labels d :
  Forall (names_other name) labels →
  dict_get name (scrape_labels labels d).1 = dict_get name d.
Proof.
  intros F. revert d. induction F as [|l labels O F IH]; intros d; [done|].
  rewrite scrape_labels_step.
  destruct l as [|text card]; simpl in *; [done|].
  destruct (negb _); [by rewrite IH|].
  destruct card as [| |raw|]; try done; try by rewrite IH.
  destruct (convert_to_24h _); rewrite IH; [|done].
  rewrite dict_get_set. destruct (String.eqb_spec (PyStr.strip text) name);
    [done|done].
Qed.

(** X7: when the page shows a prayer more than once, the last label of that
    name whose time parses gives the value, provided no exception ended the
    loop before it. *)
Theorem last_label_wins before text raw after v :
  in_names (PyStr.strip text) PRAYER_NAMES = true →
  convert_to_24h (PyStr.strip raw) = Some v →
  (scrape_labels before []).2 = Returned →
  Forall (names_other (PyStr.strip text)) after →
  dict_get (PyStr.strip text)
    (scrape_iqama_times
       (PageLabels (before ++ Label text (RawTime raw) :: after)))
  = Some v.
Proof.
  intros I C R F. unfold scrape_iqama_times. simpl.
  rewrite scrape_labels_app by done.
  rewrite scrape_labels_step. simpl. rewrite I, C. simpl.
  rewrite scrape_labels_other by done.
  by rewrite dict_get_set, String.eqb_refl.
Qed.

Lemma last_label_wins_witness :
  dict_get "Fajr"
    (scrape_iqama_times
       (PageLabels [Label "Fajr" (RawTime "6:15 AM");
                    Label " Fajr" (RawTime "6:30 AM");
                    Label "Asr" (RawTime "4:45 PM")]))
  = Some "06:30".
Proof.
  apply (last_label_wins [Label "Fajr" (RawTime "6:15 AM")] " Fajr" "6:30 AM"
           [Label "Asr" (RawTime "4:45 PM")] "06:30").
  - reflexivity.
  - reflexivity.
  - reflexivity.
  - repeat constructor. simpl. discriminate.
Defined.

Lemma dict_get_is_Some k d : is_Some (dict_get k d) ↔ k ∈ d.*1.
Proof.
  induction d as [|[a b] d IH]; simpl.
  - split; [by intros [? ?]|by intros ?%elem_of_nil].
  - rewrite elem_of_cons, <- IH.
    destruct (String.eqb_spec a k) as [->|]; [|naive_solver].
    split; [by left|by eexists].
Qed.

Lemma recognized_length d : NoDup d.*1 → recognized d → (length d <= 5)%nat.
Proof.
  intros N R. rewrite <- (length_fmap fst d).
  change 5%nat with (length PRAYER_NAMES).
  by apply submseteq_length, NoDup_submseteq.
Qed.

Lemma scrape_labels_values labels d :
  (∀ k v, (k, v) ∈ d → ∃ raw, convert_to_24h raw = Some v) →
  ∀ k v, (k, v) ∈ (scrape_labels labels d).1 →
         ∃ raw, convert_to_24h raw = Some v.
Proof.
  revert d. induction labels as [|l labels IH]; intros d H; [done|].
  rewrite scrape_labels_step.
  destruct (label_step l) as [|k' v'|] eqn:St; [by apply IH| |done].
  apply IH. intros k v [[= -> ->]|I]%dict_set_elem; [|eauto].
  by apply label_step_store in St as [_ ?].
Qed.

(** X8: whatever the page, the scraper returns at most five entries with
    distinct names of [PRAYER_NAMES], each value five characters wide and
    read by [schedule_today] as an hour 0..23 and a minute 0..59. *)
Theorem scraped_times_are_wellformed page :
  let r := scrape_iqama_times page in
  NoDup r.*1
  ∧ (length r <= 5)%nat
  ∧ ∀ k v, (k, v) ∈ r →
      k ∈ PRAYER_NAMES
      ∧ String.length v = 5%nat
      ∧ ∃ h m, 0 <= h <= 23 ∧ 0 <= m <= 59 ∧ parse_hm v = Some (h, m).
Proof.
  intros r. destruct (scrape_iqama_times_wf page) as (N & R & _).
  split_and!; [done|by apply recognized_length|].
  intros k v I. split.
  { apply R, list_elem_of_fmap. by exists (k, v). }
  assert (∃ raw, convert_to_24h raw = Some v) as [raw C].
  { subst r. unfold scrape_iqama_times in I.
    destruct page as [|labels]; simpl in I; [by apply elem_of_nil in I|].
    eapply scrape_labels_values; [|exact I].
    intros ? ? H. by apply elem_of_nil in H. }
  destruct (convert_to_24h_valid raw v C) as (h & m & Hh & Hm & E & P).
  split; [|by exists h, m].
  subst v. pose proof width_table as T. rewrite forallb_forall in T.
  assert (In h (seqZ 0 24)) as Ih.
  { apply list_elem_of_In, elem_of_seqZ. lia. }
  specialize (T h Ih). rewrite forallb_forall in T.
  assert (In m (seqZ 0 60)) as Im.
  { apply list_elem_of_In, elem_of_seqZ. lia. }
  specialize (T m Im). by apply bool_decide_eq_true in T.
Qed.

(** X9: the names in the merged times are the scraped names and the manual
    names that are in [PRAYER_NAMES]; a manual entry under any other name is
    dropped, so there are at most five entries. *)
Theorem merged_keys i k :
  (k ∈ (merged_times i).*1 ↔
   k ∈ (scrape_iqama_times (in_page i)).*1
   ∨ (k ∈ PRAYER_NAMES ∧ k ∈ (get_manual_iqama_times (in_manual i)).*1))
  ∧ (k ∈ (merged_times i).*1 → k ∈ PRAYER_NAMES)
  ∧ (length (merged_times i) <= 5)%nat.
Proof.
  split_and!.
  - rewrite <- !dict_get_is_Some. unfold merged_times.
    rewrite merge_manual_get.
    destruct (dict_get k (scrape_iqama_times (in_page i))) as [v|] eqn:S.
    + split; [by left|by eexists].
    + destruct (in_names k PRAYER_NAMES) eqn:I.
      * apply in_names_elem in I. split; [by right|].
        intros [[? ?]|[_ ?]]; done.
      * split; [by intros [? ?]|]. intros [[? ?]|[I' _]]; [done|].
        apply elem_in_names in I'. congruence.
  - apply merged_times_recognized.
  - apply recognized_length;
      [apply merged_times_NoDup|apply merged_times_recognized].
Qed.

Lemma loop_raised f today now d (js : jobstore) :
  (schedule_prayers f today now d js).2 = Raised →
  ∃ k v, (k, v) ∈ d ∧ parse_hm v = None.
Proof.
  revert js. induction d as [|[p t] d IH]; intros js; [done|].
  rewrite loop_cons. destruct (parse_hm t) eqn:P.
  - intros (k & v & I & N)%IH. exists k, v. split; [by right|done].
  - intros _. exists p, t. split; [left|done].
Qed.

Lemma schedule_today_outcome i w :
  (schedule_today i w).2
  = (schedule_prayers (is_friday (in_today i)) (in_today i) (in_now i)
       (merged_times i) (remove_generation (jobs w))).2.
Proof.
  unfold schedule_today.
  pose proof (loop_returned (is_friday (in_today i)) (in_today i) (in_now i)
                (merged_times i) (remove_generation (jobs w))) as R.
  destruct (schedule_times_cases (in_today i) (in_now i) (merged_times i)
              (remove_prayer_jobs w))
    as [[E ->]|[(_ & N & ->)|(_ & V & ->)]]; simpl in *.
  - by rewrite E.
  - destruct (schedule_prayers _ _ _ _ _) as [js [|]]; simpl in *; [|done].
    destruct N. by apply R.
  - symmetry. by apply R.
Qed.

(** X10: a cycle returns exactly when every merged time can be read, and a
    cycle that raises was given, for a prayer of [PRAYER_NAMES] the page did
    not give, a manual time that cannot be read. *)
Theorem cycle_raises_on_unreadable_manual_time i w :
  ((schedule_today i w).2 = Returned ↔ valid_times (merged_times i))
  ∧ ((schedule_today i w).2 = Raised →
     ∃ k v, k ∈ PRAYER_NAMES
            ∧ dict_get k (scrape_iqama_times (in_page i)) = None
            ∧ dict_get k (get_manual_iqama_times (in_manual i)) = Some v
            ∧ parse_hm v = None).
Proof.
  rewrite schedule_today_outcome. split; [apply loop_returned|].
  intros (k & v & I & P)%loop_raised.
  unfold merged_times in I.
  destruct (scrape_iqama_times_wf (in_page i)) as (N & _ & V).
  apply (merge_manual_elem _ _ _ _ _ N) in I as [G|(G & In & M)].
  - apply dict_get_elem, V in G as [x G']. congruence.
  - by exists k, v.
Qed.

(** X11: when the manual times of the prayers of [PRAYER_NAMES] can all be
    read, in particular with the empty table, no page makes the cycle
    raise. *)
Theorem readable_manual_times_never_raise i w :
  (∀ k v, k ∈ PRAYER_NAMES →
          dict_get k (get_manual_iqama_times (in_manual i)) = Some v →
          is_Some (parse_hm v)) →
  (schedule_today i w).2 = Returned.
Proof.
  intros H. destruct ((schedule_today i w).2) eqn:O; [done|].
  rewrite schedule_today_outcome in O.
  apply loop_raised in O as (k & v & I & P).
  unfold merged_times in I.
  destruct (scrape_iqama_times_wf (in_page i)) as (N & _ & V).
  apply (merge_manual_elem _ _ _ _ _ N) in I as [G|(G & In & M)].
  - apply dict_get_elem, V in G as [x G']. congruence.
  - destruct (H k v In M) as [x G']. congruence.
Qed.

Lemma readable_manual_times_never_raise_witness :
  (main (mk_input 738888 (combine 738888 5 0)
           (PageLabels [Label "Fajr" (RawTime "6:15 AM"); LabelRaises])
           [])).2 = Returned.
Proof.
  apply (readable_manual_times_never_raise
           (mk_input 738888 (combine 738888 5 0)
              (PageLabels [Label "Fajr" (RawTime "6:15 AM"); LabelRaises])
              []) started).
  intros k v _ H. simpl in H. discriminate H.
Defined.

(** X12: a cycle asks OBS for the default scene once, as its last step,
    when there is a time to schedule and it returns; it asks for nothing when
    there is no time or when it raises; it never asks for the prayer scene. *)
Theorem cycle_scene_requests i w :
  (merged_times i ≠ [] → (schedule_today i w).2 = Returned →
   scene_calls (schedule_today i w).1 = scene_calls w ++ [SCENE_DEFAULT])
  ∧ (merged_times i = [] ∨ (schedule_today i w).2 = Raised →
     scene_calls (schedule_today i w).1 = scene_calls w).
Proof.
  unfold schedule_today.
  destruct (schedule_times_cases (in_today i) (in_now i) (merged_times i)
              (remove_prayer_jobs w))
    as [[E ->]|[(Ne & _ & ->)|(Ne & _ & ->)]]; simpl.
  - split; [done|done].
  - split; [done|done].
  - split; [done|]. by intros [?|?].
Qed.

(** X13: after two cycles the store is what the second cycle alone would
    have left: nothing of the first cycle's generation survives. *)
Theorem later_cycle_supersedes i1 i2 w :
  jobs (schedule_today i2 (schedule_today i1 w).1).1
  = jobs (schedule_today i2 w).1.
Proof.
  assert (∀ w', jobs (schedule_today i2 w').1
            = jobs (schedule_times (in_today i2) (in_now i2) (merged_times i2)
                      (mk_world ∅ [])).1 ∪ remove_generation (jobs w')) as E.
  { intros w'. exact (schedule_times_union _ _ _ (remove_prayer_jobs w')). }
  rewrite (E w), (E (schedule_today i1 w).1). f_equal.
  apply map_eq. intros id. rewrite !remove_generation_lookup.
  destruct (generation_id id) eqn:G; [done|].
  by apply schedule_today_frame.
Qed.

Lemma dt_gt_add_minutes dt now n :
  0 <= n → dt_gt dt now = true → dt_gt (add_minutes dt n) now = true.
Proof.
  unfold dt_gt. rewrite add_minutes_key. intros Hn H%Z.ltb_lt.
  apply Z.ltb_lt. unfold us_per_minute. lia.
Qed.

Lemma due_Some f today now p t dt :
  due f today now p t = Some dt → dt_gt dt now = true.
Proof.
  unfold due. destruct (parse_hm t) as [[h m]|]; [|done].
  destruct (f && _); [done|].
  destruct (dt_gt (combine today h m) now) eqn:G; [|done].
  by intros [= <-].
Qed.

(** X14: every [prayer_] or [jumuah_] job in the store after a cycle is a
    date job whose run date is after [now]. *)
Theorem installed_jobs_are_future i w id j :
  generation_id id = true →
  jobs (schedule_today i w).1 !! id = Some j →
  ∃ dt, job_trigger j = DateTrigger dt ∧ dt_gt dt (in_now i) = true.
Proof.
  intros G H.
  apply schedule_today_origin in H
    as [[G' _]|[(p & t & dt & _ & D & C)|(_ & _ & _ & S & C)]].
  - congruence.
  - apply due_Some in D. destruct C as [[_ ->]|[_ ->]]; simpl.
    + by exists dt.
    + eexists. split; [done|]. by apply dt_gt_add_minutes.
  - destruct C as [[_ ->]|[_ ->]]; simpl.
    + by eexists.
    + eexists. split; [done|]. unfold dt_gt in *.
      apply Z.ltb_lt in S. apply Z.ltb_lt.
      unfold jumuah_start_dt, jumuah_end_dt, dt_key, combine,
        us_per_minute in *. simpl in *. lia.
Qed.

Lemma installed_jobs_are_future_witness :
  let i := mk_input 738890 (combine 738890 5 0) PageRaises
             [("Asr", "16:45")] in
  ∃ dt, job_trigger (jumuah_end_job 738890) = DateTrigger dt
        ∧ dt_gt dt (in_now i) = true.
Proof.
  intros i.
  apply (installed_jobs_are_future i started "jumuah_end"); reflexivity.
Defined.

Lemma install_paired f today now q t (js : jobstore) p :
  paired js p → paired (install f today now q t js) p.
Proof.
  intros P. unfold install. destruct (due f today now q t) as [dt|]; [|done].
  destruct (decide (p = q)) as [->|N].
  - right. exists dt. rewrite lookup_insert_ne, !lookup_insert_eq; [done|].
    intros E. by apply (start_id_end_id q q).
  - unfold paired. rewrite !lookup_insert_ne; [done|..].
    + intros E. by apply (start_id_end_id q p).
    + by intros E%end_id_inj.
    + by intros E%start_id_inj.
    + intros E. by apply (start_id_end_id p q).
Qed.

Lemma loop_paired f today now d (js : jobstore) p :
  paired js p → paired (schedule_prayers f today now d js).1 p.
Proof.
  revert js. induction d as [|[q t] d IH]; intros js P; [done|].
  rewrite loop_cons. destruct (parse_hm t); [|done].
  by apply IH, install_paired.
Qed.

Lemma schedule_today_jobs_cases i w :
  let loop := (schedule_prayers (is_friday (in_today i)) (in_today i)
                 (in_now i) (merged_times i)
                 (remove_generation (jobs w))).1 in
  jobs (schedule_today i w).1 = remove_generation (jobs w)
  ∨ jobs (schedule_today i w).1 = loop
  ∨ jobs (schedule_today i w).1
    = install_jumuah (is_friday (in_today i)) (in_today i) (in_now i) loop.
Proof.
  intros loop. unfold schedule_today.
  destruct (schedule_times_cases (in_today i) (in_now i) (merged_times i)
              (remove_prayer_jobs w))
    as [[E ->]|[(_ & _ & ->)|(_ & _ & ->)]]; simpl; auto.
Qed.

(** X15: however the cycle ends, the store holds for each prayer either
    both jobs, the way back [PRAYER_DURATION_MINUTES] after the start, or
    neither; and either both window jobs, at 13:25 and 14:15 of the day, or
    neither. *)
Theorem start_and_restore_in_pairs i w :
  let js := jobs (schedule_today i w).1 in
  (∀ p, (js !! start_id p = None ∧ js !! end_id p = None)
        ∨ ∃ dt, js !! start_id p
                = Some (mk_job SwitchToPrayer (DateTrigger dt))
                ∧ js !! end_id p
                  = Some (mk_job SwitchToDefault
                            (DateTrigger
                               (add_minutes dt PRAYER_DURATION_MINUTES))))
  ∧ ((js !! "jumuah_start" = None ∧ js !! "jumuah_end" = None)
     ∨ (js !! "jumuah_start"
        = Some (mk_job SwitchToPrayer
                  (DateTrigger (combine (in_today i) 13 25)))
        ∧ js !! "jumuah_end"
          = Some (mk_job SwitchToDefault
                    (DateTrigger (combine (in_today i) 14 15))))).
Proof.
  intros js.
  set (f := is_friday (in_today i)).
  set (c := remove_generation (jobs w)).
  set (l := (schedule_prayers f (in_today i) (in_now i) (merged_times i) c).1).
  assert (∀ p, paired c p) as Pc.
  { intros p. left. subst c.
    by rewrite !remove_generation_lookup, start_id_generation,
      end_id_generation. }
  assert (∀ p, paired l p) as Pl by (intros p; apply loop_paired, Pc).
  assert (∀ id, startswith id "jumuah_" = true → c !! id = None) as Jc.
  { intros id S. subst c. rewrite remove_generation_lookup.
    unfold generation_id. by rewrite S, orb_true_r. }
  assert (∀ id, startswith id "jumuah_" = true → l !! id = None) as Jl.
  { intros id S. subst l. rewrite loop_frame; [by apply Jc|].
    intros q _. destruct (start_id_not_jumuah q). split; intros ->; congruence. }
  destruct (schedule_today_jobs_cases i w) as [E|[E|E]];
    subst js; rewrite E; fold f c l.
  - split; [apply Pc|]. left. by rewrite !Jc.
  - split; [apply Pl|]. left. by rewrite !Jl.
  - split.
    + intros p. destruct (start_id_not_jumuah p).
      rewrite !install_jumuah_frame by done. apply Pl.
    + unfold install_jumuah. destruct (f && _).
      * right. by rewrite lookup_insert_ne, !lookup_insert_eq.
      * left. by rewrite !Jl.
Qed.

(** X16: the window's start job is in the store after a cycle exactly when
    there was a time to schedule, the cycle returned, the day is a Friday and
    13:25 is after [now]. *)
Theorem jumuah_window_iff i w :
  is_Some (jobs (schedule_today i w).1 !! "jumuah_start")
  ↔ merged_times i ≠ [] ∧ (schedule_today i w).2 = Returned
    ∧ weekday (in_today i) = 4
    ∧ dt_gt (combine (in_today i) 13 25) (in_now i) = true.
Proof.
  split.
  - intros [j H].
    apply schedule_today_origin in H
      as [[G _]|[(p & t & dt & _ & _ & [[E _]|[E _]])
                 |(Ne & R & F & S & _)]]; try done.
    by apply is_friday_weekday in F.
  - intros (Ne & R & F%is_friday_weekday & S).
    destruct (jumuah_installed i w Ne R F S) as [-> _]. by eexists.
Qed.

Lemma day_ids_NoDup friday : NoDup (day_ids friday).
Proof.
  destruct friday; refine (bool_decide_unpack _ _); vm_compute; exact I.
Qed.

Lemma due_not_dhuhr_friday today now p t dt :
  due true today now p t = Some dt → p ≠ "Dhuhr".
Proof. intros D ->. by rewrite due_dhuhr_friday in D. Qed.

Lemma generation_job_id i w id j :
  generation_id id = true →
  jobs (schedule_today i w).1 !! id = Some j →
  id ∈ day_ids (is_friday (in_today i)).
Proof.
  intros G H.
  apply schedule_today_origin in H
    as [[G' _]|[(p & t & dt & I & D & C)|(_ & _ & F & _ & C)]].
  - congruence.
  - assert (p ∈ PRAYER_NAMES) as In.
    { apply (merged_times_recognized i), list_elem_of_fmap. by exists (p, t). }
    destruct (is_friday (in_today i)) eqn:F.
    + apply due_not_dhuhr_friday in D.
      apply list_elem_of_In in In. simpl in In.
      destruct C as [[-> _]|[-> _]];
        destruct In as [<-|[<-|[<-|[<-|[<-|[]]]]]]; try done;
        apply list_elem_of_In; simpl; auto 12.
    + apply list_elem_of_In in In. simpl in In.
      destruct C as [[-> _]|[-> _]];
        destruct In as [<-|[<-|[<-|[<-|[<-|[]]]]]];
        apply list_elem_of_In; simpl; auto 12.
  - rewrite F. destruct C as [[-> _]|[-> _]];
      apply list_elem_of_In; simpl; auto 12.
Qed.

(** X17: a cycle leaves at most ten jobs besides the jobs of other ids it
    found: refreshes do not pile up jobs. *)
Theorem store_does_not_grow i w :
  (size (jobs (schedule_today i w).1)
   ≤ size (remove_generation (jobs w)) + 10)%nat.
Proof.
  set (new := jobs (schedule_today i (mk_world ∅ [])).1).
  assert (jobs (schedule_today i w).1 = new ∪ remove_generation (jobs w)) as E.
  { unfold schedule_today. rewrite schedule_times_union. simpl.
    subst new. unfold schedule_today, remove_prayer_jobs. simpl.
    unfold remove_generation at 2. by rewrite map_filter_empty. }
  assert (∀ id j, new !! id = Some j →
            generation_id id = true
            ∧ id ∈ day_ids (is_friday (in_today i))) as Gen.
  { intros id j H. destruct (generation_id id) eqn:G.
    - split; [done|]. by eapply generation_job_id.
    - subst new. rewrite schedule_today_frame in H by done.
      simpl in H. by rewrite lookup_empty in H. }
  assert (new ##ₘ remove_generation (jobs w)) as Dj.
  { apply map_disjoint_spec. intros id x y Hx Hy.
    apply Gen in Hx as [G _].
    by rewrite remove_generation_lookup, G in Hy. }
  rewrite E, map_size_disj_union by done.
  assert (size new ≤ 10)%nat; [|lia].
  rewrite <- size_dom.
  transitivity (size (list_to_set (day_ids (is_friday (in_today i)))
                      : gset string)).
  - apply subseteq_size. intros id [j H]%elem_of_dom.
    apply elem_of_list_to_set. by apply Gen in H as [_ ?].
  - rewrite size_list_to_set by apply day_ids_NoDup.
    by destruct (is_friday (in_today i)).
Qed.

Lemma split_length sep s :
  length (PyStr.split sep s) = S (count_char sep s).
Proof.
  induction s as [|a s IH]; [done|]. simpl.
  destruct (Ascii.eqb a sep); simpl; [by rewrite IH|].
  destruct (PyStr.split sep s); simpl in *; [done|lia].
Qed.

(** X5: [schedule_today] reads a time only from a text with exactly one
    colon, and then as an hour 0..23 and a minute 0..59. *)
Theorem parse_hm_needs_one_colon t h m :
  parse_hm t = Some (h, m) →
  count_char ":" t = 1%nat ∧ 0 <= h <= 23 ∧ 0 <= m <= 59.
Proof.
  unfold parse_hm. pose proof (split_length ":" t) as L.
  destruct (PyStr.split ":" t) as [|a [|b [|c l]]]; try done.
  destruct (PyStr.int a) as [x|]; [|done].
  destruct (PyStr.int b) as [y|]; [|done].
  destruct ((0 <=? x) && (x <=? 23) && (0 <=? y) && (y <=? 59)) eqn:G;
    [|done].
  intros [= <- <-]. simpl in L.
  repeat (apply andb_true_iff in G as [G ?]).
  repeat match goal with
         | H : (_ <=? _) = true |- _ => apply Z.leb_le in H
         end.
  split; [lia|lia].
Qed.

Lemma parse_hm_needs_one_colon_witness :
  parse_hm " 6 : 5 " = Some (6, 5)
  ∧ count_char ":" " 6 : 5 " = 1%nat ∧ 0 <= 6 <= 23 ∧ 0 <= 5 <= 59.
Proof.
  split; [reflexivity|].
  apply (parse_hm_needs_one_colon " 6 : 5 " 6 5). reflexivity.
Defined.
